(** * The profile parser of [parser.py], embedded and verified

    [parser.py] drives a browser, intercepts two GraphQL requests of a
    profile page and maps their JSON bodies into a result dictionary.  The
    embedding below follows the class [Parser] method by method:

    - decoded JSON bodies are values of [json], with Python dictionaries
      as association lists in insertion order;
    - every Python operation that can raise is a function into [result],
      tagged with the class of the built-in exception it raises;
    - the handler [intercept_request] runs in a small state monad over the
      parser's [self.data] and the log of the calls made on the [route]
      object; the state survives a raised exception, as the attributes of
      a Python object do;
    - of [parse] and [run], which drive the browser, what is kept is the
      sequence of interceptions of a session; [save_results] dumps
      [self.data] as it is then. *)

From Stdlib Require Import ZArith List String Ascii Bool Lia.
From Stdlib Require Import Floats.SpecFloat.
Import ListNotations.

Local Open Scope string_scope.
Local Open Scope list_scope.
Local Open Scope Z_scope.

(** ** Exceptions and results *)

(** The exception classes the parser can meet.  The module defines no
    exception class of its own and has no [try] statement: everything it
    raises is one of Python's built-ins.  [OtherError] stands for what the
    collaborators raise ([route.fetch], [response.json]). *)
Inductive exn : Type :=
| KeyError
| TypeError
| IndexError
| AttributeError
| OtherError (cls : string).

Definition exn_name (e : exn) : string :=
  match e with
  | KeyError => "KeyError"
  | TypeError => "TypeError"
  | IndexError => "IndexError"
  | AttributeError => "AttributeError"
  | OtherError cls => cls
  end.

(** The built-in exceptions raised by subscripting and attribute access. *)
Definition builtin_exn (e : exn) : Prop :=
  e = KeyError \/ e = TypeError \/ e = IndexError \/ e = AttributeError.

Inductive result (A : Type) : Type :=
| Ok (a : A)
| Raise (e : exn).
Arguments Ok {A} a.
Arguments Raise {A} e.

Definition rbind {A B : Type} (r : result A) (k : A -> result B) : result B :=
  match r with
  | Ok a => k a
  | Raise e => Raise e
  end.

Declare Scope result_scope.
Delimit Scope result_scope with result.
Notation "x <- r ;; k" := (rbind r (fun x => k))
  (at level 61, r at next level, right associativity) : result_scope.
Local Open Scope result_scope.

(** A comprehension or a loop body run over the items in order: the first
    exception ends it. *)
Fixpoint mapM {A B : Type} (f : A -> result B) (l : list A) : result (list B) :=
  match l with
  | [] => Ok []
  | x :: xs => y <- f x ;; ys <- mapM f xs ;; Ok (y :: ys)
  end.

(** ** Decoded JSON *)

(** What [response.json()] returns: [None], [bool], [int], [float], [str],
    [list] and [dict] with [str] keys.  A [str] is kept as its UTF-8 bytes;
    a [dict] keeps its items in insertion order. *)
#[warnings="-register-all"]
Inductive json : Type :=
| JNone
| JBool (b : bool)
| JInt (n : Z)
| JFloat (f : spec_float)
| JStr (s : string)
| JList (l : list json)
| JDict (d : list (string * json)).

Definition dict : Type := list (string * json).

(** [d.get(k)] as an option: the value of the first item with key [k]. *)
Fixpoint dict_get (k : string) (d : dict) : option json :=
  match d with
  | [] => None
  | (k', v) :: d' => if String.eqb k k' then Some v else dict_get k d'
  end.

(** [d[k] = v]: the value of an existing key is replaced in place, a new
    key is added at the end. *)
Fixpoint dict_set (k : string) (v : json) (d : dict) : dict :=
  match d with
  | [] => [(k, v)]
  | (k', v') :: d' =>
      if String.eqb k k' then (k', v) :: d' else (k', v') :: dict_set k v d'
  end.

Definition keys (d : dict) : list string := map fst d.

(** *** Characters of a [str]

    [len], indexing and iteration of a Python [str] count code points.  In
    UTF-8 a code point is one byte that is not a continuation byte
    ([10xxxxxx]) followed by its continuation bytes. *)
Definition is_continuation (c : ascii) : bool :=
  match c with
  | Ascii _ _ _ _ _ _ b6 b7 => b7 && negb b6
  end.

Definition starts_char (s : string) : bool :=
  match s with
  | EmptyString => true
  | String d _ => negb (is_continuation d)
  end.

Fixpoint py_chars (s : string) : list string :=
  match s with
  | EmptyString => []
  | String c rest =>
      match py_chars rest with
      | h :: t =>
          if starts_char rest then String c EmptyString :: h :: t
          else String c h :: t
      | [] => [String c EmptyString]
      end
  end.

(** *** The operations of the parser on a decoded value *)

(** [v[k]] with [k] a [str]: only a [dict] can be subscripted by a string. *)
Definition subscript (v : json) (k : string) : result json :=
  match v with
  | JDict d =>
      match dict_get k d with
      | Some x => Ok x
      | None => Raise KeyError
      end
  | _ => Raise TypeError
  end.

(** [v[i]] with [i] a non-negative [int] literal.  A [dict] decoded from
    JSON has only [str] keys, so an [int] key is never found. *)
Definition subscript_int (v : json) (i : nat) : result json :=
  match v with
  | JList l =>
      match nth_error l i with
      | Some x => Ok x
      | None => Raise IndexError
      end
  | JStr s =>
      match nth_error (py_chars s) i with
      | Some c => Ok (JStr c)
      | None => Raise IndexError
      end
  | JDict _ => Raise KeyError
  | _ => Raise TypeError
  end.

(** [l[:stop]] on a sequence of length [n]: a negative [stop] counts from
    the end, and both ends are clamped. *)
Definition slice_to {A : Type} (stop : Z) (l : list A) : list A :=
  let n := Z.of_nat (List.length l) in
  let hi := if stop <? 0 then Z.max 0 (n + stop) else Z.min stop n in
  firstn (Z.to_nat hi) l.

(** [v.get(k, default)]: of the decoded values only a [dict] has [get]. *)
Definition get (v : json) (k : string) (default : json) : result json :=
  match v with
  | JDict d =>
      match dict_get k d with
      | Some x => Ok x
      | None => Ok default
      end
  | _ => Raise AttributeError
  end.

(** Truth value of [v] in [if v:]. *)
Definition truthy (v : json) : bool :=
  match v with
  | JNone => false
  | JBool b => b
  | JInt n => negb (n =? 0)
  | JFloat (S754_zero _) => false
  | JFloat _ => true
  | JStr EmptyString => false
  | JStr _ => true
  | JList [] => false
  | JList _ => true
  | JDict [] => false
  | JDict _ => true
  end.

(** The items [for item in v] runs over: the elements of a [list], the
    characters of a [str], the keys of a [dict]. *)
Definition iter (v : json) : result (list json) :=
  match v with
  | JList l => Ok l
  | JStr s => Ok (map JStr (py_chars s))
  | JDict d => Ok (map JStr (keys d))
  | _ => Raise TypeError
  end.

(** [v[k1][k2]...[kn]], evaluated left to right. *)
Fixpoint subscripts (v : json) (path : list string) : result json :=
  match path with
  | [] => Ok v
  | k :: path' => x <- subscript v k ;; subscripts x path'
  end.

(** [v[:stop]], the slice of line 79.  A [list] or a [str] is sliced; a
    [dict] has no slice among its keys (the subscript raises [TypeError],
    "unhashable type: 'slice'", and from Python 3.12 on, where a slice is
    hashable, [KeyError]: nothing below tells the two apart); the other
    values cannot be subscripted. *)
Definition subscript_slice (v : json) (stop : Z) : result json :=
  match v with
  | JList l => Ok (JList (slice_to stop l))
  | JStr s => Ok (JStr (String.concat EmptyString (slice_to stop (py_chars s))))
  | _ => Raise TypeError
  end.

(** ** The class [Parser] *)

(** [TWIT_COUNT: int = 50], the maximum number of tweets to extract. *)
Definition TWIT_COUNT : Z := 50.

(** *** [get_profile] (lines 20-37) *)

(** Line 27: [data['data']['user']['result']['legacy']]. *)
Definition profile_path : list string := ["data"; "user"; "result"; "legacy"].

Definition get_profile (data : json) : result json :=
  profile <- subscripts data profile_path ;;
  username <- get profile "screen_name" JNone ;;
  display_name <- get profile "name" JNone ;;
  followers <- get profile "followers_count" JNone ;;
  following <- get profile "friends_count" JNone ;;
  tweets_count <- get profile "statuses_count" JNone ;;
  profile_url <- get profile "profile_banner_url" JNone ;;
  avatar <- get profile "profile_image_url_https" JNone ;;
  Ok (JDict [("username", username);
             ("display_name", display_name);
             ("followers", followers);
             ("following", following);
             ("tweets_count", tweets_count);
             ("profile_url", profile_url);
             ("avatar", avatar)]).

(** *** [tweet_parse] (lines 39-61) *)

(** Line 58, one item of the comprehension:
    [{'url': item['media_url_https']}]. *)
Definition media_item (item : json) : result json :=
  url <- subscript item "media_url_https" ;;
  Ok (JDict [("url", url)]).

Definition tweet_parse (legacy : json) : result json :=
  created_at <- subscript legacy "created_at" ;;
  text <- subscript legacy "full_text" ;;
  quote_count <- subscript legacy "quote_count" ;;
  reply_count <- subscript legacy "reply_count" ;;
  retweet_count <- subscript legacy "retweet_count" ;;
  bookmark_count <- get legacy "bookmark_count" (JInt 0) ;;
  let tweet := [("created_at", created_at);
                ("text", text);
                ("quote_count", quote_count);
                ("reply_count", reply_count);
                ("retweet_count", retweet_count);
                ("bookmark_count", bookmark_count)] in
  entities <- get legacy "entities" (JDict []) ;;
  tweet_media <- get entities "media" (JList []) ;;
  if truthy tweet_media then
    items <- iter tweet_media ;;
    media <- mapM media_item items ;;
    Ok (JDict (dict_set "media" (JList media) tweet))
  else
    Ok (JDict tweet).

(** *** [get_tweets] (lines 63-83) *)

(** Line 70. *)
Definition instructions_path : list string :=
  ["data"; "user"; "result"; "timeline_v2"; "timeline"; "instructions"].

(** Line 74, below [instructions[1]]. *)
Definition first_tweet_path : list string :=
  ["entry"; "content"; "itemContent"; "tweet_results"; "result"; "legacy"].

(** Line 80, below one entry. *)
Definition entry_path : list string :=
  ["content"; "itemContent"; "tweet_results"; "result"; "legacy"].

(** Lines 80-81, the body of the loop. *)
Definition entry_tweet (tweet : json) : result json :=
  legacy <- subscripts tweet entry_path ;;
  tweet_parse legacy.

(** [get_tweets] with the class attribute [self.TWIT_COUNT] as a
    parameter.  The list [tweets] is local: when the loop raises, what was
    appended so far is lost with it. *)
Definition get_tweets_cap (cap : Z) (data : json) : result (list json) :=
  instructions <- subscripts data instructions_path ;;
  i1 <- subscript_int instructions 1 ;;
  first_tweet_legacy <- subscripts i1 first_tweet_path ;;
  first <- tweet_parse first_tweet_legacy ;;
  i2 <- subscript_int instructions 2 ;;
  original_tweets <- subscript i2 "entries" ;;
  sliced <- subscript_slice original_tweets (cap - 1) ;;
  items <- iter sliced ;;
  rest <- mapM entry_tweet items ;;
  Ok (first :: rest).

Definition get_tweets (data : json) : result (list json) :=
  get_tweets_cap TWIT_COUNT data.

(** ** The interception router *)

(** [sub in s] on strings.  The test is on bytes; for the two endpoint
    names, which are ASCII, it is the test on code points. *)
Fixpoint contains (sub s : string) : bool :=
  if String.prefix sub s then true
  else match s with
       | EmptyString => false
       | String _ s' => contains sub s'
       end.

(** What a run of the handler does to the outside, in order. *)
Inductive effect : Type :=
| PrintRoute      (* [print(route)] *)
| RouteFetch      (* [route.fetch()] *)
| RouteContinue.  (* [route.continue_()], without overrides *)

(** The [route] and [request] objects Playwright passes to the handler.
    [fetch_json n] is what [route.fetch().json()] gives at the call that
    follows [n] earlier fetches on this route: a decoded body, or the
    exception of the fetch or of the decoding. *)
Record Route : Type := { fetch_json : nat -> result json }.
Record Request : Type := { url : string }.

(** The parser object ([self.data]) and the log of the effects of the
    handler on its route. *)
Record state : Type := { data : dict; log : list effect }.

(** A computation returns or raises, and leaves a state in both cases. *)
Definition M (A : Type) : Type := state -> result A * state.

Definition ret {A : Type} (a : A) : M A := fun st => (Ok a, st).

Definition bind {A B : Type} (m : M A) (k : A -> M B) : M B :=
  fun st =>
    match m st with
    | (Ok a, st') => k a st'
    | (Raise e, st') => (Raise e, st')
    end.

Definition lift {A : Type} (r : result A) : M A := fun st => (r, st).

Definition emit (ev : effect) : M unit :=
  fun st => (Ok tt, {| data := data st; log := log st ++ [ev] |}).

(** [self.data[k] = v]. *)
Definition set_data (k : string) (v : json) : M unit :=
  fun st => (Ok tt, {| data := dict_set k v (data st); log := log st |}).

Declare Scope handler_scope.
Delimit Scope handler_scope with handler.
Notation "x <- m ;; k" := (bind m (fun x => k))
  (at level 61, m at next level, right associativity) : handler_scope.
Notation "m ;; k" := (bind m (fun _ => k))
  (at level 61, right associativity) : handler_scope.

Definition fetches (l : list effect) : nat :=
  List.length (filter (fun ev => match ev with RouteFetch => true | _ => false end) l).

(** Lines 102-106, the closure [query]. *)
Definition query (route : Route) : M json :=
  (emit PrintRoute ;;
   n <- (fun st => (Ok (fetches (log st)), st)) ;;
   emit RouteFetch ;;
   lift (fetch_json route n))%handler.

(** Lines 94-114. *)
Definition intercept_request (route : Route) (request : Request) : M unit :=
  ((if contains "UserByScreenName" (url request) then
      payload <- query route ;;
      user <- lift (get_profile payload) ;;
      set_data "user" user
    else ret tt) ;;
   (if contains "UserTweets" (url request) then
      payload <- query route ;;
      tweets <- lift (get_tweets payload) ;;
      set_data "tweets" (JList tweets)
    else ret tt) ;;
   emit RouteContinue)%handler.

(** [__init__]: [self.data = {}]. *)
Definition init_data : dict := [].

(** One interception: the handler runs on the parser's data with a fresh
    route; an exception it raises leaves the data as they are then. *)
Definition handle (d : dict) (rr : Route * Request) : dict :=
  data (snd (intercept_request (fst rr) (snd rr) {| data := d; log := [] |})).

(** The data after the interceptions of a session, in order. *)
Definition session (reqs : list (Route * Request)) : dict :=
  fold_left handle reqs init_data.

(** * Vocabulary of the properties, and bodies to run the parser on *)

(** ** Dictionaries *)

(** The value of [d.get(k, default)] on a dictionary [d]. *)
Definition get_default (k : string) (default : json) (d : dict) : json :=
  match dict_get k d with
  | Some x => x
  | None => default
  end.

(** ** The profile mapper *)

(** The keys of the record [get_profile] builds, each with the key of the
    [legacy] object it is read from (lines 29-35). *)
Definition profile_fields : list (string * string) :=
  [("username", "screen_name");
   ("display_name", "name");
   ("followers", "followers_count");
   ("following", "friends_count");
   ("tweets_count", "statuses_count");
   ("profile_url", "profile_banner_url");
   ("avatar", "profile_image_url_https")].

Definition int_str_or_null (v : json) : Prop :=
  match v with
  | JNone | JInt _ | JStr _ => True
  | _ => False
  end.

(** A profile body whose [legacy] object has the seven fields, one of
    them not a number, a string or [null]. *)
Definition profile_legacy : dict :=
  [("screen_name", JStr "elonmusk");
   ("name", JStr "Elon Musk");
   ("followers_count", JInt 200);
   ("friends_count", JInt 10);
   ("statuses_count", JInt 3000);
   ("profile_banner_url", JBool false);
   ("profile_image_url_https", JStr "https://pbs.twimg.com/a.jpg")].

Definition profile_payload : json :=
  JDict [("data", JDict [("user", JDict [("result",
    JDict [("legacy", JDict profile_legacy)])])])].

(** The record built from a [legacy] object. *)
Definition profile_of (legacy : dict) : dict :=
  map (fun f => (fst f, get_default (snd f) JNone legacy)) profile_fields.

(** An error body in place of a user object. *)
Definition error_body : json :=
  JDict [("errors", JList [JDict [("message", JStr "Not found")]])].

(** A body with the whole path and [null] under [legacy]. *)
Definition null_legacy_body : json :=
  JDict [("data", JDict [("user", JDict [("result", JDict [("legacy", JNone)])])])].

(** ** The post mapper *)

(** Lines 56-59 on their own: the value stored under [media], if any. *)
Definition media_of (legacy : json) : result (option json) :=
  entities <- get legacy "entities" (JDict []) ;;
  tweet_media <- get entities "media" (JList []) ;;
  if truthy tweet_media then
    items <- iter tweet_media ;;
    media <- mapM media_item items ;;
    Ok (Some (JList media))
  else
    Ok None.

(** Lines 46-53 on their own: the six fields every record has. *)
Definition base_tweet (d : dict) (created_at text quote reply retweet : json) : dict :=
  [("created_at", created_at);
   ("text", text);
   ("quote_count", quote);
   ("reply_count", reply);
   ("retweet_count", retweet);
   ("bookmark_count", get_default "bookmark_count" (JInt 0) d)].

Definition with_media (m : option json) (tweet : dict) : dict :=
  match m with
  | Some media => tweet ++ [("media", media)]
  | None => tweet
  end.

(** The media-entities value of a fragment, [legacy['entities']['media']],
    when both keys are there. *)
Definition media_entities (d : dict) : option json :=
  match dict_get "entities" d with
  | Some (JDict e) => dict_get "media" e
  | _ => None
  end.

Definition mandatory_fields (d : dict) (created_at text quote reply retweet : json) : Prop :=
  dict_get "created_at" d = Some created_at /\
  dict_get "full_text" d = Some text /\
  dict_get "quote_count" d = Some quote /\
  dict_get "reply_count" d = Some reply /\
  dict_get "retweet_count" d = Some retweet.

(** Fragments to run the mapper on: one with every field and two media
    entries, one with the five subscripted fields only, one whose second
    media entry has no [media_url_https], one without [created_at]. *)
Definition media_entry (u : string) : json :=
  JDict [("type", JStr "photo"); ("media_url_https", JStr u)].

Definition tweet_fields : dict :=
  [("created_at", JStr "Mon Mar 03 10:00:00 +0000 2025");
   ("full_text", JStr "hello");
   ("quote_count", JInt 1);
   ("reply_count", JInt 2);
   ("retweet_count", JInt 3)].

Definition tweet_full : dict :=
  tweet_fields ++
  [("bookmark_count", JInt 4);
   ("entities", JDict [("media", JList [media_entry "https://pbs.twimg.com/media/1.jpg";
                                         media_entry "https://pbs.twimg.com/media/2.jpg"])])].

Definition tweet_bad_media : dict :=
  tweet_fields ++
  [("entities", JDict [("media", JList [media_entry "https://pbs.twimg.com/media/1.jpg";
                                         JDict [("type", JStr "photo")]])])].

Definition tweet_no_date : dict := tl tweet_fields.

Definition tweet_full_record : dict :=
  [("created_at", JStr "Mon Mar 03 10:00:00 +0000 2025");
   ("text", JStr "hello");
   ("quote_count", JInt 1);
   ("reply_count", JInt 2);
   ("retweet_count", JInt 3);
   ("bookmark_count", JInt 4);
   ("media", JList [JDict [("url", JStr "https://pbs.twimg.com/media/1.jpg")];
                    JDict [("url", JStr "https://pbs.twimg.com/media/2.jpg")]])].

(** ** The timeline extractor *)

(** A fragment of the documented shape: the five subscripted fields, and
    media entities that are absent or a list of objects with their
    [media_url_https]. *)
Definition well_formed_media (d : dict) : Prop :=
  dict_get "entities" d = None \/
  exists e, dict_get "entities" d = Some (JDict e) /\
    (dict_get "media" e = None \/
     exists items, dict_get "media" e = Some (JList items) /\
       Forall (fun entry => exists f u, entry = JDict f /\
                 dict_get "media_url_https" f = Some u) items).

Definition post_fragment (legacy : json) : Prop :=
  exists d created_at text quote reply retweet,
    legacy = JDict d /\
    mandatory_fields d created_at text quote reply retweet /\
    well_formed_media d.

(** A timeline body of the documented shape: [instructions] is a list
    with, at index 1, the wrapped first post [first] and, at index 2, an
    object whose [entries] is the list [entries], each entry wrapping a
    post. *)
Definition valid_timeline (data first : json) (entries : list json) : Prop :=
  exists instructions i1 i2,
    subscripts data instructions_path = Ok (JList instructions) /\
    nth_error instructions 1 = Some i1 /\
    subscripts i1 first_tweet_path = Ok first /\
    post_fragment first /\
    nth_error instructions 2 = Some i2 /\
    subscript i2 "entries" = Ok (JList entries) /\
    Forall (fun entry => exists legacy,
              subscripts entry entry_path = Ok legacy /\ post_fragment legacy)
           entries.

(** Line 74 and line 78 on their own. *)
Definition first_legacy_of (instructions : json) : result json :=
  i1 <- subscript_int instructions 1 ;;
  subscripts i1 first_tweet_path.

Definition entries_of (instructions : json) : result json :=
  i2 <- subscript_int instructions 2 ;;
  subscript i2 "entries".

(** Timeline bodies to run the extractor on. *)
Definition wrap_post (legacy : json) : json :=
  JDict [("entryId", JStr "tweet-1");
         ("content", JDict [("itemContent", JDict [("tweet_results",
            JDict [("result", JDict [("legacy", legacy)])])])])].

Definition timeline_body (instructions : list json) : json :=
  JDict [("data", JDict [("user", JDict [("result", JDict [("timeline_v2",
    JDict [("timeline", JDict [("instructions", JList instructions)])])])])])].

Definition clear_instruction : json := JDict [("type", JStr "TimelineClearCache")].

Definition pin_instruction : json :=
  JDict [("type", JStr "TimelinePinEntry"); ("entry", wrap_post (JDict tweet_full))].

Definition timeline_entries : list json :=
  [wrap_post (JDict tweet_fields); wrap_post (JDict tweet_full)].

Definition timeline_payload : json :=
  timeline_body [clear_instruction; pin_instruction;
                 JDict [("type", JStr "TimelineAddEntries");
                        ("entries", JList timeline_entries)]].

(** The same body without the instruction at index 2. *)
Definition timeline_without_entries : json :=
  timeline_body [clear_instruction; pin_instruction].

(** ** The interception router *)

(** Requests and routes to run the handler on. *)
Definition profile_request : Request :=
  {| url := "https://x.com/i/api/graphql/abc/UserByScreenName?variables=1" |}.
Definition tweets_request : Request :=
  {| url := "https://x.com/i/api/graphql/def/UserTweets?variables=1" |}.
Definition other_request : Request :=
  {| url := "https://x.com/i/api/graphql/ghi/ProfileSpotlightsQuery?variables=1" |}.

Definition route_with (body : json) : Route := {| fetch_json := fun _ => Ok body |}.

(** The state after the closure [query] has run once more. *)
Definition queried (st : state) : state :=
  {| data := data st; log := log st ++ [PrintRoute; RouteFetch] |}.

(** The two branches of the handler (lines 108-109 and 111-112). *)
Definition profile_branch (route : Route) (request : Request) : M unit :=
  (if contains "UserByScreenName" (url request) then
     payload <- query route ;;
     user <- lift (get_profile payload) ;;
     set_data "user" user
   else ret tt)%handler.

Definition tweets_branch (route : Route) (request : Request) : M unit :=
  (if contains "UserTweets" (url request) then
     payload <- query route ;;
     tweets <- lift (get_tweets payload) ;;
     set_data "tweets" (JList tweets)
   else ret tt)%handler.

(** *** The keys of the result store *)

(** What the store holds between interceptions: keys [user] and [tweets]
    only, each at most once, [user] with a record of [get_profile] and
    [tweets] with a list of [get_tweets]. *)
Definition store_inv (d : dict) : Prop :=
  NoDup (keys d) /\
  (forall k, In k (keys d) -> k = "user" \/ k = "tweets") /\
  (forall v, dict_get "user" d = Some v -> exists payload, get_profile payload = Ok v) /\
  (forall v, dict_get "tweets" d = Some v ->
     exists payload tweets, get_tweets payload = Ok tweets /\ v = JList tweets).

(** ** Further vocabulary *)

(** The keys every record of [tweet_parse] has, in the order of the
    dictionary display of lines 46-53. *)
Definition tweet_keys : list string :=
  ["created_at"; "text"; "quote_count"; "reply_count"; "retweet_count";
   "bookmark_count"].

(** The keys of a fragment [tweet_parse] subscripts (lines 47-51), and the
    keys it reads at all (lines 47-56). *)
Definition subscripted_keys : list string :=
  ["created_at"; "full_text"; "quote_count"; "reply_count"; "retweet_count"].

Definition read_keys : list string :=
  subscripted_keys ++ ["bookmark_count"; "entities"].

(** A timeline body with the positions [get_tweets] walks through: the
    first-post fragment [first] under index 1 and the list [entries] under
    index 2, whatever the fragment and the entries are. *)
Definition timeline_shape (data first : json) (entries : list json) : Prop :=
  exists instructions i1 i2,
    subscripts data instructions_path = Ok (JList instructions) /\
    nth_error instructions 1 = Some i1 /\
    subscripts i1 first_tweet_path = Ok first /\
    nth_error instructions 2 = Some i2 /\
    subscript i2 "entries" = Ok (JList entries).

(** An entry that wraps a post of the documented shape. *)
Definition post_entry (entry : json) : Prop :=
  exists legacy, subscripts entry entry_path = Ok legacy /\ post_fragment legacy.

(** The writes into [self.data] of one interception, in order: those of
    the tweets branch when [n] fetches came before, and those of the
    handler. *)
Definition tweets_writes (route : Route) (request : Request) (n : nat) : dict :=
  if contains "UserTweets" (url request) then
    match fetch_json route n with
    | Ok payload =>
        match get_tweets payload with
        | Ok tweets => [("tweets", JList tweets)]
        | Raise _ => []
        end
    | Raise _ => []
    end
  else [].

Definition writes (route : Route) (request : Request) : dict :=
  if contains "UserByScreenName" (url request) then
    match fetch_json route 0 with
    | Ok payload =>
        match get_profile payload with
        | Ok user => ("user", user) :: tweets_writes route request 1
        | Raise _ => []
        end
    | Raise _ => []
    end
  else tweets_writes route request 0.

Definition apply_writes (ws : dict) (d : dict) : dict :=
  fold_left (fun d kv => dict_set (fst kv) (snd kv) d) ws d.

(** A request whose URL names both endpoints, and a route that answers
    the first fetch with a profile body and the second with a timeline. *)
Definition both_request : Request :=
  {| url := "https://x.com/i/api/graphql/UserByScreenName/UserTweets" |}.

Definition route_two (first second : json) : Route :=
  {| fetch_json := fun n => match n with O => Ok first | _ => Ok second end |}.

Definition failing_route (cls : string) : Route :=
  {| fetch_json := fun _ => Raise (OtherError cls) |}.

(** An entry of a timeline that wraps no post: the cursor that closes a
    page. *)
Definition cursor_entry : json :=
  JDict [("entryId", JStr "cursor-bottom-1");
         ("content", JDict [("entryType", JStr "TimelineTimelineCursor");
                            ("cursorType", JStr "Bottom")])].

Definition timeline_with (entries : list json) : json :=
  timeline_body [clear_instruction; pin_instruction;
                 JDict [("type", JStr "TimelineAddEntries");
                        ("entries", JList entries)]].

(** The one-to-one relation of C1's entries to the records made of them. *)
Definition mapped_entry (entry r : json) : Prop :=
  exists legacy, subscripts entry entry_path = Ok legacy /\ tweet_parse legacy = Ok r.

(** * Properties *)

(** ** Basic facts about the operations *)

(** Case analysis on a membership in an explicit list. *)
Ltac in_cases H :=
  simpl in H;
  repeat match type of H with
         | _ \/ _ => destruct H as [H|H]
         | False => contradiction
         end.

Lemma rbind_ok {A B : Type} (r : result A) (k : A -> result B) (b : B) :
  rbind r k = Ok b -> exists a, r = Ok a /\ k a = Ok b.
Proof.
  destruct r as [a|e]; simpl; intros H.
  - exists a; split; [reflexivity | exact H].
  - discriminate H.
Qed.

Lemma rbind_raise {A B : Type} (r : result A) (k : A -> result B) (e : exn) :
  rbind r k = Raise e -> r = Raise e \/ exists a, r = Ok a /\ k a = Raise e.
Proof.
  destruct r as [a|e']; simpl; intros H.
  - right; exists a; split; [reflexivity | exact H].
  - left; congruence.
Qed.

Lemma get_dict (d : dict) (k : string) (default : json) :
  get (JDict d) k default = Ok (get_default k default d).
Proof.
  unfold get, get_default; destruct (dict_get k d); reflexivity.
Qed.

Lemma subscript_ok_inv (v : json) (k : string) (x : json) :
  subscript v k = Ok x -> exists d, v = JDict d /\ dict_get k d = Some x.
Proof.
  destruct v; simpl; try discriminate.
  destruct (dict_get k d) eqn:E; intros H; inversion H; subst.
  exists d; auto.
Qed.

Lemma subscript_raise (v : json) (k : string) (e : exn) :
  subscript v k = Raise e -> e = KeyError \/ e = TypeError.
Proof.
  destruct v; simpl; intros H; try (inversion H; auto; fail).
  destruct (dict_get k d); inversion H; auto.
Qed.

Lemma subscripts_raise (path : list string) (v : json) (e : exn) :
  subscripts v path = Raise e -> e = KeyError \/ e = TypeError.
Proof.
  revert v; induction path as [|k path IH]; simpl; intros v H.
  - discriminate H.
  - apply rbind_raise in H. destruct H as [H | [x [_ H]]].
    + eapply subscript_raise; eassumption.
    + eapply IH; eassumption.
Qed.

Lemma mapM_length {A B : Type} (f : A -> result B) (l : list A) (r : list B) :
  mapM f l = Ok r -> List.length r = List.length l.
Proof.
  revert r; induction l as [|x xs IH]; simpl; intros r H.
  - inversion H; reflexivity.
  - apply rbind_ok in H. destruct H as [y [_ H]].
    apply rbind_ok in H. destruct H as [ys [Hys H]].
    inversion H; subst; simpl. f_equal. apply IH; assumption.
Qed.

Lemma mapM_Forall2 {A B : Type} (f : A -> result B) (l : list A) (r : list B) :
  mapM f l = Ok r <-> Forall2 (fun x y => f x = Ok y) l r.
Proof.
  split.
  - revert r; induction l as [|x xs IH]; simpl; intros r H.
    + inversion H; constructor.
    + apply rbind_ok in H. destruct H as [y [Hy H]].
      apply rbind_ok in H. destruct H as [ys [Hys H]].
      inversion H; subst. constructor; auto.
  - induction 1 as [|x y xs ys Hxy _ IH]; simpl.
    + reflexivity.
    + rewrite Hxy; simpl. rewrite IH; reflexivity.
Qed.

Lemma mapM_raise {A B : Type} (f : A -> result B) (l : list A) (e : exn) :
  mapM f l = Raise e <->
  exists done x todo ys,
    l = done ++ x :: todo /\ mapM f done = Ok ys /\ f x = Raise e.
Proof.
  split.
  - induction l as [|x xs IH]; simpl; intros H.
    + discriminate H.
    + destruct (f x) as [y|e'] eqn:Ex; simpl in H.
      * destruct (mapM f xs) as [ys|e'] eqn:Exs; simpl in H; [discriminate|].
        inversion H; subst e'.
        destruct (IH eq_refl) as (done & x' & todo & ys & -> & Hd & Hx').
        exists (x :: done), x', todo, (y :: ys). simpl.
        rewrite Ex, Hd. auto.
      * inversion H; subst e'. exists [], x, xs, []. auto.
  - intros (done & x & todo & ys & -> & Hd & Hx).
    revert ys Hd; induction done as [|d ds IH]; simpl; intros ys Hd.
    + rewrite Hx; reflexivity.
    + destruct (f d) as [y|e'] eqn:Ed; simpl in *; [|discriminate].
      destruct (mapM f ds) as [zs|e'] eqn:Eds; simpl in *; [|discriminate].
      rewrite (IH zs eq_refl). reflexivity.
Qed.

(** Characters are code points: two bytes of one character count once. *)
Example py_chars_utf8 :
  py_chars (String (ascii_of_nat 195) (String (ascii_of_nat 169) "ab")) =
  [String (ascii_of_nat 195) (String (ascii_of_nat 169) EmptyString); "a"; "b"].
Proof. reflexivity. Qed.

(** Slices as Python cuts them. *)
Example slice_to_examples :
  slice_to 49 [1; 2; 3] = [1; 2; 3] /\
  slice_to 2 [1; 2; 3] = [1; 2] /\
  slice_to 0 [1; 2; 3] = [] /\
  slice_to (-1) [1; 2; 3] = [1; 2] /\
  slice_to (-5) [1; 2; 3] = [].
Proof. repeat split. Qed.

Lemma slice_to_0 {A : Type} (l : list A) : slice_to 0 l = [].
Proof.
  unfold slice_to; simpl. rewrite Z.min_l by lia. reflexivity.
Qed.

(** ** The profile mapper *)

Lemma get_profile_ok (data : json) (legacy : dict) :
  subscripts data profile_path = Ok (JDict legacy) ->
  get_profile data = Ok (JDict (profile_of legacy)).
Proof.
  intros Hpath. unfold get_profile. rewrite Hpath; cbn [rbind].
  rewrite !get_dict; cbn [rbind]. reflexivity.
Qed.

Lemma profile_of_get (legacy : dict) (k src : string) :
  In (k, src) profile_fields ->
  dict_get k (profile_of legacy) = Some (get_default src JNone legacy).
Proof.
  intros Hin. in_cases Hin; inversion Hin; subst; reflexivity.
Qed.

(** C3, as the code has it: when the path [data -> user -> result ->
    legacy] leads to an object, [get_profile] returns a record with exactly
    the seven keys [username], [display_name], [followers], [following],
    [tweets_count], [profile_url], [avatar], in this order; each value is
    the value of the field it is read from, [None] when the field is
    missing; the values are integers, strings or [None] when the fields
    that are present are. *)
Theorem get_profile_record (data : json) (legacy : dict) :
  subscripts data profile_path = Ok (JDict legacy) ->
  exists r,
    get_profile data = Ok (JDict r) /\
    keys r = ["username"; "display_name"; "followers"; "following";
              "tweets_count"; "profile_url"; "avatar"] /\
    (forall k src, In (k, src) profile_fields ->
       dict_get k r = Some (get_default src JNone legacy)) /\
    ((forall k src v, In (k, src) profile_fields ->
        dict_get src legacy = Some v -> int_str_or_null v) ->
     Forall int_str_or_null (map snd r)).
Proof.
  intros Hpath. exists (profile_of legacy).
  split; [apply get_profile_ok; exact Hpath|].
  split; [reflexivity|]. split.
  - apply profile_of_get.
  - intros Hty.
    assert (Hv : forall k src, In (k, src) profile_fields ->
                 int_str_or_null (get_default src JNone legacy)).
    { intros k src Hin. unfold get_default.
      destruct (dict_get src legacy) as [v|] eqn:E; [|exact I].
      eapply Hty; eassumption. }
    simpl. repeat constructor; eapply Hv; simpl; eauto 10.
Qed.

Lemma get_profile_record_witness :
  exists r,
    get_profile profile_payload = Ok (JDict r) /\
    keys r = ["username"; "display_name"; "followers"; "following";
              "tweets_count"; "profile_url"; "avatar"] /\
    (forall k src, In (k, src) profile_fields ->
       dict_get k r = Some (get_default src JNone profile_legacy)) /\
    ((forall k src v, In (k, src) profile_fields ->
        dict_get src profile_legacy = Some v -> int_str_or_null v) ->
     Forall int_str_or_null (map snd r)).
Proof.
  apply (get_profile_record profile_payload profile_legacy).
  reflexivity.
Defined.

(** C3, as the specification words it, fails: on a body with the whole
    path and the seven fields, the record has no key [profile_banner_url]
    and no key [avatar_url] (the keys are [profile_url] and [avatar]), and
    the value of a field that is a boolean in the body is that boolean. *)
Lemma get_profile_spec_keys_counterexample :
  subscripts profile_payload profile_path = Ok (JDict profile_legacy) /\
  exists r,
    get_profile profile_payload = Ok (JDict r) /\
    ~ In "profile_banner_url" (keys r) /\
    ~ In "avatar_url" (keys r) /\
    In "profile_url" (keys r) /\
    In "avatar" (keys r) /\
    dict_get "profile_url" r = Some (JBool false) /\
    ~ Forall int_str_or_null (map snd r).
Proof.
  split; [reflexivity|].
  eexists; split; [reflexivity|]. simpl.
  repeat split.
  - intros H. in_cases H; discriminate H.
  - intros H. in_cases H; discriminate H.
  - auto 10.
  - auto 10.
  - intros H.
    repeat match goal with
           | H : Forall _ (_ :: _) |- _ => inversion H; subst; clear H
           end.
    simpl in *. contradiction.
Qed.

(** On a value that is not a dictionary the first [profile.get] raises. *)
Lemma get_profile_not_dict (data v : json) :
  subscripts data profile_path = Ok v ->
  (forall d, v <> JDict d) ->
  get_profile data = Raise AttributeError.
Proof.
  intros Hpath Hv. unfold get_profile. rewrite Hpath; cbn [rbind].
  destruct v; try reflexivity. exfalso; eapply Hv; reflexivity.
Qed.

(** C5, as the code has it: [get_profile] returns whenever the path
    [data -> user -> result -> legacy] leads to an object, whichever of the
    seven fields are missing, and a missing field gives [None]; it raises
    exactly when the path does not lead to an object: the [KeyError] or
    [TypeError] of the subscript that fails when the path is absent,
    [AttributeError] when what is found under [legacy] is not an object.
    No exception named [MalformedPayload] is ever raised. *)
Theorem get_profile_raises (data : json) :
  (forall legacy, subscripts data profile_path = Ok (JDict legacy) ->
     exists r, get_profile data = Ok (JDict r) /\
       forall k src, In (k, src) profile_fields ->
         dict_get src legacy = None -> dict_get k r = Some JNone) /\
  (forall e, get_profile data = Raise e <->
     ((subscripts data profile_path = Raise e /\ (e = KeyError \/ e = TypeError)) \/
      (e = AttributeError /\
       exists v, subscripts data profile_path = Ok v /\ forall d, v <> JDict d))) /\
  (forall e, get_profile data = Raise e -> exn_name e <> "MalformedPayload").
Proof.
  assert (Hiff : forall e, get_profile data = Raise e <->
     ((subscripts data profile_path = Raise e /\ (e = KeyError \/ e = TypeError)) \/
      (e = AttributeError /\
       exists v, subscripts data profile_path = Ok v /\ forall d, v <> JDict d))).
  { intros e. destruct (subscripts data profile_path) as [v|e0] eqn:Hpath.
    - assert (Hd : (exists d, v = JDict d) \/ forall d, v <> JDict d).
      { destruct v; try (right; intros d' Hd'; discriminate Hd').
        left; eexists; reflexivity. }
      destruct Hd as [[d ->] | Hnd].
      + rewrite (get_profile_ok data d Hpath). split; [discriminate|].
        intros [[H _] | [_ [v [Hv Hnd]]]]; [discriminate|].
        inversion Hv; subst v. exfalso; eapply Hnd; reflexivity.
      + rewrite (get_profile_not_dict data v Hpath Hnd). split.
        * intros H; inversion H; subst. right; split; [reflexivity|].
          exists v; auto.
        * intros [[H _] | [-> _]]; [discriminate | reflexivity].
    - unfold get_profile. rewrite Hpath; cbn [rbind]. split.
      + intros H; inversion H; subst. left; split; [reflexivity|].
        eapply subscripts_raise; eassumption.
      + intros [[H _] | [_ [v [Hv _]]]]; [exact H | discriminate]. }
  split; [|split].
  - intros legacy Hpath.
    exists (profile_of legacy); split; [apply get_profile_ok; exact Hpath|].
    intros k src Hin Hmiss. rewrite (profile_of_get legacy k src Hin).
    unfold get_default. rewrite Hmiss. reflexivity.
  - exact Hiff.
  - intros e He. apply Hiff in He.
    destruct He as [[_ [-> | ->]] | [-> _]]; discriminate.
Qed.

Lemma get_profile_raises_witness :
  (exists r, get_profile profile_payload = Ok (JDict r)) /\
  get_profile error_body = Raise KeyError.
Proof.
  split.
  - destruct (get_profile_raises profile_payload) as [H _].
    destruct (H profile_legacy eq_refl) as [r [Hr _]].
    exists r; exact Hr.
  - destruct (get_profile_raises error_body) as [_ [H _]].
    apply H. left; split; [reflexivity | left; reflexivity].
Defined.

(** C5, as the specification words it, fails twice.  On an error body,
    where the path is absent, what [get_profile] raises is [KeyError], not
    an exception named [MalformedPayload]; and on a body where every key of
    the path is present, with [null] under [legacy], it raises too
    ([AttributeError]). *)
Lemma get_profile_malformed_counterexample :
  (subscripts error_body profile_path = Raise KeyError /\
   get_profile error_body = Raise KeyError /\
   exn_name KeyError <> "MalformedPayload") /\
  (subscripts null_legacy_body profile_path = Ok JNone /\
   get_profile null_legacy_body = Raise AttributeError).
Proof.
  repeat split. discriminate.
Qed.

(** ** The post mapper *)

Lemma subscript_dict (d : dict) (k : string) (x : json) :
  dict_get k d = Some x -> subscript (JDict d) k = Ok x.
Proof. intros H; simpl; rewrite H; reflexivity. Qed.

Lemma subscript_missing (d : dict) (k : string) :
  dict_get k d = None -> subscript (JDict d) k = Raise KeyError.
Proof. intros H; simpl; rewrite H; reflexivity. Qed.

(** [tweet_parse] on a fragment with the five subscripted fields. *)
Lemma tweet_parse_dict (d : dict) (created_at text quote reply retweet : json) :
  mandatory_fields d created_at text quote reply retweet ->
  tweet_parse (JDict d) =
  m <- media_of (JDict d) ;;
  Ok (JDict (with_media m (base_tweet d created_at text quote reply retweet))).
Proof.
  intros (Hc & Ht & Hq & Hr & Hrt).
  unfold tweet_parse, media_of.
  rewrite (subscript_dict _ _ _ Hc), (subscript_dict _ _ _ Ht),
    (subscript_dict _ _ _ Hq), (subscript_dict _ _ _ Hr),
    (subscript_dict _ _ _ Hrt); cbn [rbind].
  rewrite !get_dict; cbn [rbind].
  destruct (get _ "media" _) as [tweet_media|e]; cbn [rbind]; [|reflexivity].
  destruct (truthy tweet_media); [|reflexivity].
  destruct (iter tweet_media) as [items|e]; cbn [rbind]; [|reflexivity].
  destruct (mapM media_item items) as [media|e]; cbn [rbind]; reflexivity.
Qed.

(** What [tweet_parse] returns, it returns on a fragment with the five
    fields. *)
Lemma tweet_parse_ok_inv (legacy t : json) :
  tweet_parse legacy = Ok t ->
  exists d created_at text quote reply retweet,
    legacy = JDict d /\ mandatory_fields d created_at text quote reply retweet.
Proof.
  unfold tweet_parse. intros H.
  apply rbind_ok in H; destruct H as (c & Hc & H).
  apply rbind_ok in H; destruct H as (tx & Ht & H).
  apply rbind_ok in H; destruct H as (q & Hq & H).
  apply rbind_ok in H; destruct H as (r & Hr & H).
  apply rbind_ok in H; destruct H as (rt & Hrt & _).
  apply subscript_ok_inv in Hc; destruct Hc as (d & -> & Hc).
  exists d, c, tx, q, r, rt. split; [reflexivity|].
  apply subscript_ok_inv in Ht; destruct Ht as (d1 & E1 & Ht); inversion E1; subst d1.
  apply subscript_ok_inv in Hq; destruct Hq as (d1 & E2 & Hq); inversion E2; subst d1.
  apply subscript_ok_inv in Hr; destruct Hr as (d1 & E3 & Hr); inversion E3; subst d1.
  apply subscript_ok_inv in Hrt; destruct Hrt as (d1 & E4 & Hrt); inversion E4; subst d1.
  repeat split; assumption.
Qed.

(** The media part when the media-entities value is absent or empty. *)
Lemma media_of_none (d : dict) :
  (dict_get "entities" d = None \/
   exists e, dict_get "entities" d = Some (JDict e) /\
             (dict_get "media" e = None \/ dict_get "media" e = Some (JList []))) ->
  media_of (JDict d) = Ok None.
Proof.
  unfold media_of. rewrite get_dict; cbn [rbind]. unfold get_default.
  intros [H | (e & He & [H | H])].
  - rewrite H. reflexivity.
  - rewrite He. rewrite get_dict; cbn [rbind]. unfold get_default. rewrite H. reflexivity.
  - rewrite He. rewrite get_dict; cbn [rbind]. unfold get_default. rewrite H. reflexivity.
Qed.

(** The media part on a non-empty list. *)
Lemma media_of_list (d : dict) (item : json) (items : list json) :
  media_entities d = Some (JList (item :: items)) ->
  media_of (JDict d) =
  media <- mapM media_item (item :: items) ;; Ok (Some (JList media)).
Proof.
  unfold media_entities, media_of. rewrite get_dict; cbn [rbind]. unfold get_default.
  destruct (dict_get "entities" d) as [[| | | | | |e]|]; try discriminate.
  intros H. rewrite get_dict; cbn [rbind]. unfold get_default. rewrite H.
  reflexivity.
Qed.

Lemma mapM_Exists_raise {A B : Type} (f : A -> result B) (l : list A) :
  Exists (fun x => forall y, f x <> Ok y) l ->
  exists e x, In x l /\ f x = Raise e /\ mapM f l = Raise e.
Proof.
  induction 1 as [x xs Hx | x xs _ IH].
  - destruct (f x) as [y|e] eqn:E; [exfalso; eapply Hx; reflexivity|].
    exists e, x. simpl. rewrite E. auto.
  - destruct IH as (e & x' & Hin & Hx' & Hm).
    destruct (f x) as [y|e0] eqn:E.
    + exists e, x'. simpl. rewrite E, Hm. auto.
    + exists e0, x. simpl. rewrite E. auto.
Qed.

Lemma media_item_ok_inv (item m : json) :
  media_item item = Ok m ->
  exists url, subscript item "media_url_https" = Ok url /\ m = JDict [("url", url)].
Proof.
  unfold media_item. intros H. apply rbind_ok in H. destruct H as (url & Hu & H).
  inversion H; subst. exists url; auto.
Qed.

Lemma media_item_raise (item : json) (e : exn) :
  media_item item = Raise e -> e = KeyError \/ e = TypeError.
Proof.
  unfold media_item. intros H. apply rbind_raise in H.
  destruct H as [H | (url & _ & H)]; [|discriminate].
  eapply subscript_raise; eassumption.
Qed.

(** C6, as the code has it: on a fragment with the five subscripted
    fields [created_at], [full_text], [quote_count], [reply_count] and
    [retweet_count], [tweet_parse] raises exactly when its media part
    (lines 56-59) raises, and otherwise returns a record with these five
    values verbatim and a [bookmark_count] that is the fragment's, or 0
    when the fragment has none; when [created_at] or [full_text] is
    missing it raises [KeyError]. *)
Theorem tweet_parse_fields (d : dict) :
  (forall created_at text quote reply retweet,
     mandatory_fields d created_at text quote reply retweet ->
     (forall e, tweet_parse (JDict d) = Raise e <-> media_of (JDict d) = Raise e) /\
     (forall m, media_of (JDict d) = Ok m ->
        exists r,
          tweet_parse (JDict d) = Ok (JDict r) /\
          dict_get "created_at" r = Some created_at /\
          dict_get "text" r = Some text /\
          dict_get "quote_count" r = Some quote /\
          dict_get "reply_count" r = Some reply /\
          dict_get "retweet_count" r = Some retweet /\
          (forall b, dict_get "bookmark_count" d = Some b ->
                     dict_get "bookmark_count" r = Some b) /\
          (dict_get "bookmark_count" d = None ->
           dict_get "bookmark_count" r = Some (JInt 0)))) /\
  (dict_get "created_at" d = None \/ dict_get "full_text" d = None ->
   tweet_parse (JDict d) = Raise KeyError).
Proof.
  split.
  - intros c t q r rt Hm. rewrite (tweet_parse_dict d c t q r rt Hm). split.
    + intros e. destruct (media_of (JDict d)) as [m|e']; cbn [rbind].
      * split; discriminate.
      * split; intros H; inversion H; reflexivity.
    + intros m ->; cbn [rbind]. eexists; split; [reflexivity|].
      destruct m; cbn; repeat split; try reflexivity;
        unfold get_default; intros;
        match goal with H : dict_get _ d = _ |- _ => rewrite H end; reflexivity.
  - intros [H | H]; unfold tweet_parse.
    + rewrite (subscript_missing _ _ H). reflexivity.
    + destruct (subscript (JDict d) "created_at") as [c|e] eqn:E; cbn [rbind].
      * rewrite (subscript_missing _ _ H). reflexivity.
      * simpl in E. destruct (dict_get "created_at" d); inversion E; reflexivity.
Qed.

Lemma tweet_parse_fields_witness :
  (exists r, tweet_parse (JDict tweet_full) = Ok (JDict r) /\
             dict_get "text" r = Some (JStr "hello") /\
             dict_get "bookmark_count" r = Some (JInt 4)) /\
  (exists r, tweet_parse (JDict tweet_fields) = Ok (JDict r) /\
             dict_get "bookmark_count" r = Some (JInt 0)) /\
  tweet_parse (JDict tweet_no_date) = Raise KeyError.
Proof.
  split; [|split].
  - destruct (tweet_parse_fields tweet_full) as [H _].
    destruct (H _ _ _ _ _ (conj eq_refl (conj eq_refl (conj eq_refl (conj eq_refl eq_refl)))))
      as [_ H'].
    destruct (H' _ eq_refl) as (r & Hr & _ & Ht & _ & _ & _ & Hb & _).
    exists r. split; [exact Hr|]. split; [exact Ht|]. apply Hb. reflexivity.
  - destruct (tweet_parse_fields tweet_fields) as [H _].
    destruct (H _ _ _ _ _ (conj eq_refl (conj eq_refl (conj eq_refl (conj eq_refl eq_refl)))))
      as [_ H'].
    destruct (H' _ eq_refl) as (r & Hr & _ & _ & _ & _ & _ & _ & Hb).
    exists r. split; [exact Hr|]. apply Hb. reflexivity.
  - destruct (tweet_parse_fields tweet_no_date) as [_ H].
    apply H. left. reflexivity.
Defined.

(** C6, as the specification words it, fails twice.  Without
    [created_at] the exception is [KeyError], not one named
    [MalformedPayload]; and a fragment with all the mandatory fields gets
    no record when a media entry has no [media_url_https]. *)
Lemma tweet_parse_malformed_counterexample :
  (dict_get "created_at" tweet_no_date = None /\
   tweet_parse (JDict tweet_no_date) = Raise KeyError /\
   exn_name KeyError <> "MalformedPayload") /\
  (mandatory_fields tweet_bad_media
     (JStr "Mon Mar 03 10:00:00 +0000 2025") (JStr "hello") (JInt 1) (JInt 2) (JInt 3) /\
   tweet_parse (JDict tweet_bad_media) = Raise KeyError).
Proof.
  split; [|split].
  - repeat split; discriminate.
  - repeat split.
  - reflexivity.
Qed.

(** The media part of a fragment whose media-entities value is absent:
    either it yields nothing or it raises (when [entities] is not an
    object). *)
Lemma media_of_absent (d : dict) (m : option json) :
  media_entities d = None \/ media_entities d = Some (JList []) ->
  media_of (JDict d) = Ok m -> m = None.
Proof.
  unfold media_entities. intros Habs Hm.
  destruct (dict_get "entities" d) as [ent|] eqn:He.
  - destruct ent as [| | | | | |e];
      try (unfold media_of in Hm; rewrite get_dict in Hm; unfold get_default in Hm;
           rewrite He in Hm; cbn in Hm; discriminate Hm).
    rewrite media_of_none in Hm; [congruence|].
    right. exists e. split; [exact He|]. destruct Habs; auto.
  - rewrite media_of_none in Hm; [congruence | left; exact He].
Qed.

(** C7: whenever [tweet_parse] returns a record for a fragment, the
    record has no [media] key if the fragment's media-entities list is
    absent or empty, and if the list is not empty the record has under
    [media] one item [{'url': ...}] per entry, in order, with the entry's
    [media_url_https]. *)
Theorem tweet_parse_media (legacy t : json) :
  tweet_parse legacy = Ok t ->
  exists d r,
    legacy = JDict d /\ t = JDict r /\
    (media_entities d = None \/ media_entities d = Some (JList []) ->
     ~ In "media" (keys r)) /\
    (forall item items,
       media_entities d = Some (JList (item :: items)) ->
       exists media,
         dict_get "media" r = Some (JList media) /\
         Forall2 (fun entry m =>
                    exists u, subscript entry "media_url_https" = Ok u /\
                              m = JDict [("url", u)])
                 (item :: items) media).
Proof.
  intros H.
  destruct (tweet_parse_ok_inv legacy t H) as (d & c & tx & q & r & rt & -> & Hf).
  rewrite (tweet_parse_dict d c tx q r rt Hf) in H.
  apply rbind_ok in H. destruct H as (m & Hm & H). inversion H; subst t; clear H.
  exists d. eexists. split; [reflexivity|]. split; [reflexivity|]. split.
  - intros Habs. rewrite (media_of_absent d m Habs Hm). simpl.
    intros Hin. in_cases Hin; discriminate Hin.
  - intros item items Hl. rewrite (media_of_list d item items Hl) in Hm.
    apply rbind_ok in Hm. destruct Hm as (media & Hmap & Hm).
    inversion Hm; subst m. exists media. split; [reflexivity|].
    apply mapM_Forall2 in Hmap.
    eapply Forall2_impl; [|exact Hmap].
    intros entry x Hx. apply media_item_ok_inv; exact Hx.
Qed.

Lemma tweet_parse_media_witness :
  exists d r,
    JDict tweet_full = JDict d /\ JDict tweet_full_record = JDict r /\
    (media_entities d = None \/ media_entities d = Some (JList []) ->
     ~ In "media" (keys r)) /\
    (forall item items,
       media_entities d = Some (JList (item :: items)) ->
       exists media,
         dict_get "media" r = Some (JList media) /\
         Forall2 (fun entry m =>
                    exists u, subscript entry "media_url_https" = Ok u /\
                              m = JDict [("url", u)])
                 (item :: items) media).
Proof.
  apply (tweet_parse_media (JDict tweet_full) (JDict tweet_full_record)).
  reflexivity.
Defined.

(** The two shapes of C7 on concrete fragments. *)
Example tweet_parse_two_media :
  tweet_parse (JDict tweet_full) = Ok (JDict tweet_full_record).
Proof. reflexivity. Qed.

Example tweet_parse_empty_media :
  tweet_parse (JDict (tweet_fields ++ [("entities", JDict [("media", JList [])])])) =
  Ok (JDict [("created_at", JStr "Mon Mar 03 10:00:00 +0000 2025");
             ("text", JStr "hello");
             ("quote_count", JInt 1);
             ("reply_count", JInt 2);
             ("retweet_count", JInt 3);
             ("bookmark_count", JInt 0)]).
Proof. reflexivity. Qed.

(** C10: on a fragment with the five subscripted fields and a media list
    in which some entry is an object without [media_url_https],
    [tweet_parse] raises ([KeyError], or [TypeError] when an earlier entry
    is not an object): the entry is not skipped. *)
Theorem tweet_parse_media_url_required
    (d : dict) (created_at text quote reply retweet : json) (items : list json) :
  mandatory_fields d created_at text quote reply retweet ->
  media_entities d = Some (JList items) ->
  Exists (fun entry => exists f, entry = JDict f /\
                                 dict_get "media_url_https" f = None) items ->
  exists e, tweet_parse (JDict d) = Raise e /\ (e = KeyError \/ e = TypeError).
Proof.
  intros Hf Hl Hex.
  rewrite (tweet_parse_dict d _ _ _ _ _ Hf).
  destruct items as [|item items]; [inversion Hex|].
  rewrite (media_of_list d item items Hl).
  assert (Hex' : Exists (fun x => forall y, media_item x <> Ok y) (item :: items)).
  { eapply Exists_impl; [|exact Hex].
    intros entry (f & -> & Hnone) y. unfold media_item.
    rewrite (subscript_missing _ _ Hnone). discriminate. }
  destruct (mapM_Exists_raise media_item _ Hex') as (e & x & _ & Hx & Hm).
  exists e. rewrite Hm. split; [reflexivity|].
  eapply media_item_raise; eassumption.
Qed.

Lemma tweet_parse_media_url_required_witness :
  exists e, tweet_parse (JDict tweet_bad_media) = Raise e /\
            (e = KeyError \/ e = TypeError).
Proof.
  apply (tweet_parse_media_url_required tweet_bad_media
           (JStr "Mon Mar 03 10:00:00 +0000 2025") (JStr "hello")
           (JInt 1) (JInt 2) (JInt 3)
           [media_entry "https://pbs.twimg.com/media/1.jpg";
            JDict [("type", JStr "photo")]]).
  - repeat split.
  - reflexivity.
  - apply Exists_cons_tl. apply Exists_cons_hd.
    exists [("type", JStr "photo")]. split; reflexivity.
Defined.

(** ** The timeline extractor *)

Lemma mapM_total {A B : Type} (f : A -> result B) (l : list A) :
  Forall (fun x => exists y, f x = Ok y) l -> exists r, mapM f l = Ok r.
Proof.
  induction 1 as [|x xs [y Hy] _ [r Hr]]; simpl.
  - eexists; reflexivity.
  - rewrite Hy, Hr; simpl. eexists; reflexivity.
Qed.

Lemma Forall_slice_to {A : Type} (P : A -> Prop) (stop : Z) (l : list A) :
  Forall P l -> Forall P (slice_to stop l).
Proof.
  unfold slice_to. generalize (Z.to_nat
    (if stop <? 0 then Z.max 0 (Z.of_nat (List.length l) + stop)
     else Z.min stop (Z.of_nat (List.length l)))) as n.
  intros n H; revert n. induction H as [|x xs Hx _ IH]; intros [|n]; simpl;
    constructor; auto.
Qed.

Lemma media_of_total (d : dict) :
  well_formed_media d -> exists m, media_of (JDict d) = Ok m.
Proof.
  intros [H | (e & He & [H | (items & Hi & Hall)])].
  - exists None. apply media_of_none. left; exact H.
  - exists None. apply media_of_none. right. exists e; auto.
  - destruct items as [|item items].
    + exists None. apply media_of_none. right. exists e; auto.
    + rewrite (media_of_list d item items).
      * destruct (mapM_total media_item (item :: items)) as [r Hr].
        { eapply Forall_impl; [|exact Hall].
          intros entry (f & u & -> & Hu). unfold media_item.
          rewrite (subscript_dict _ _ _ Hu). eexists; reflexivity. }
        rewrite Hr. eexists; reflexivity.
      * unfold media_entities. rewrite He. exact Hi.
Qed.

(** [tweet_parse] returns on every fragment of the documented shape. *)
Lemma tweet_parse_total (legacy : json) :
  post_fragment legacy -> exists t, tweet_parse legacy = Ok t.
Proof.
  intros (d & c & t & q & r & rt & -> & Hf & Hm).
  rewrite (tweet_parse_dict d c t q r rt Hf).
  destruct (media_of_total d Hm) as [m ->]. eexists; reflexivity.
Qed.

(** [get_tweets] past line 70, on the instructions. *)
Lemma get_tweets_cap_eq (cap : Z) (data instructions : json) :
  subscripts data instructions_path = Ok instructions ->
  get_tweets_cap cap data =
  first_legacy <- first_legacy_of instructions ;;
  first <- tweet_parse first_legacy ;;
  original_tweets <- entries_of instructions ;;
  sliced <- subscript_slice original_tweets (cap - 1) ;;
  items <- iter sliced ;;
  rest <- mapM entry_tweet items ;;
  Ok (first :: rest).
Proof.
  intros H. unfold get_tweets_cap, first_legacy_of, entries_of. rewrite H; cbn [rbind].
  destruct (subscript_int instructions 1) as [i1|e]; cbn [rbind]; [|reflexivity].
  destruct (subscripts i1 first_tweet_path) as [fl|e]; cbn [rbind]; [|reflexivity].
  destruct (tweet_parse fl) as [first|e]; cbn [rbind]; [|reflexivity].
  destruct (subscript_int instructions 2) as [i2|e]; cbn [rbind]; reflexivity.
Qed.

(** On a timeline of the documented shape, [get_tweets] maps the first
    post and then the entries of the slice. *)
Lemma get_tweets_cap_valid (cap : Z) (data first : json) (entries : list json) :
  valid_timeline data first entries ->
  exists t rest,
    tweet_parse first = Ok t /\
    mapM entry_tweet (slice_to (cap - 1) entries) = Ok rest /\
    get_tweets_cap cap data = Ok (t :: rest).
Proof.
  intros (instrs & i1 & i2 & Hp & H1 & Hf & Hpf & H2 & He & Hall).
  destruct (tweet_parse_total first Hpf) as [t Ht].
  destruct (mapM_total entry_tweet (slice_to (cap - 1) entries)) as [rest Hrest].
  { apply Forall_slice_to. eapply Forall_impl; [|exact Hall].
    intros entry (legacy & Hl & Hpl). unfold entry_tweet. rewrite Hl; cbn [rbind].
    apply tweet_parse_total; exact Hpl. }
  exists t, rest. split; [exact Ht|]. split; [exact Hrest|].
  rewrite (get_tweets_cap_eq cap data (JList instrs) Hp).
  unfold first_legacy_of, entries_of, subscript_int.
  rewrite H1, H2; cbn [rbind]. rewrite Hf; cbn [rbind]. rewrite Ht; cbn [rbind].
  rewrite He; cbn [rbind subscript_slice iter].
  rewrite Hrest; reflexivity.
Qed.

Lemma slice_to_length_eq {A : Type} (stop : Z) (l : list A) :
  0 <= stop ->
  Z.of_nat (List.length (slice_to stop l)) = Z.min stop (Z.of_nat (List.length l)).
Proof.
  intros Hs. unfold slice_to.
  destruct (stop <? 0) eqn:E; [apply Z.ltb_lt in E; lia|].
  rewrite length_firstn. lia.
Qed.

Lemma tweet_fields_fragment : post_fragment (JDict tweet_fields).
Proof.
  exists tweet_fields. do 5 eexists. split; [reflexivity|].
  split; [repeat split | left; reflexivity].
Qed.

Lemma tweet_full_fragment : post_fragment (JDict tweet_full).
Proof.
  exists tweet_full. do 5 eexists. split; [reflexivity|].
  split; [repeat split|]. right. eexists. split; [reflexivity|].
  right. eexists. split; [reflexivity|].
  repeat constructor; do 2 eexists; split; reflexivity.
Qed.

Lemma timeline_payload_valid :
  valid_timeline timeline_payload (JDict tweet_full) timeline_entries.
Proof.
  do 3 eexists. split; [reflexivity|]. split; [reflexivity|].
  split; [reflexivity|]. split; [exact tweet_full_fragment|].
  split; [reflexivity|]. split; [reflexivity|].
  repeat constructor; eexists; (split; [reflexivity|]);
    [exact tweet_fields_fragment | exact tweet_full_fragment].
Qed.

(** C1: on every timeline body of the documented shape [get_tweets]
    returns a list whose first element is [tweet_parse] of the first-post
    fragment and whose length is at most [TWIT_COUNT] = 50, the first post
    counted; so it is for every cap from 1 on, where the length is the
    smaller of the cap and one plus the number of entries. *)
Theorem get_tweets_bounded (data first : json) (entries : list json) :
  valid_timeline data first entries ->
  exists t rest,
    tweet_parse first = Ok t /\
    get_tweets data = Ok (t :: rest) /\
    Z.of_nat (List.length (t :: rest)) <= TWIT_COUNT /\
    forall cap, 1 <= cap ->
      exists rest',
        get_tweets_cap cap data = Ok (t :: rest') /\
        Z.of_nat (List.length (t :: rest')) =
        Z.min cap (1 + Z.of_nat (List.length entries)).
Proof.
  intros Hv.
  assert (Hcap : forall cap t, tweet_parse first = Ok t -> 1 <= cap ->
            exists rest', get_tweets_cap cap data = Ok (t :: rest') /\
              Z.of_nat (List.length (t :: rest')) =
              Z.min cap (1 + Z.of_nat (List.length entries))).
  { intros cap t Ht Hc.
    destruct (get_tweets_cap_valid cap data first entries Hv)
      as (t' & rest' & Ht' & Hrest & Hg).
    assert (t' = t) by congruence. subst t'.
    exists rest'. split; [exact Hg|].
    apply mapM_length in Hrest. cbn [List.length].
    rewrite Nat2Z.inj_succ, Hrest, slice_to_length_eq by lia. lia. }
  destruct (get_tweets_cap_valid TWIT_COUNT data first entries Hv)
    as (t & rest & Ht & Hrest & Hg).
  exists t, rest. split; [exact Ht|]. split; [exact Hg|]. split.
  - destruct (Hcap TWIT_COUNT t Ht) as (rest' & Hg' & Hlen); [unfold TWIT_COUNT; lia|].
    unfold get_tweets in *. assert (rest' = rest) by congruence. subst rest'.
    rewrite Hlen. lia.
  - intros cap Hc. apply Hcap; assumption.
Qed.

Lemma get_tweets_bounded_witness :
  exists t rest,
    tweet_parse (JDict tweet_full) = Ok t /\
    get_tweets timeline_payload = Ok (t :: rest) /\
    Z.of_nat (List.length (t :: rest)) <= TWIT_COUNT /\
    forall cap, 1 <= cap ->
      exists rest',
        get_tweets_cap cap timeline_payload = Ok (t :: rest') /\
        Z.of_nat (List.length (t :: rest')) =
        Z.min cap (1 + Z.of_nat (List.length timeline_entries)).
Proof.
  apply (get_tweets_bounded timeline_payload (JDict tweet_full) timeline_entries).
  exact timeline_payload_valid.
Defined.

(** The extractor run on the body above, under the cap of the class and
    under a cap of 2. *)
Example get_tweets_three :
  get_tweets timeline_payload =
  Ok [JDict tweet_full_record;
      JDict (base_tweet tweet_fields (JStr "Mon Mar 03 10:00:00 +0000 2025")
               (JStr "hello") (JInt 1) (JInt 2) (JInt 3));
      JDict tweet_full_record].
Proof. reflexivity. Qed.

Example get_tweets_cap_two :
  option_map (@List.length json)
    (match get_tweets_cap 2 timeline_payload with Ok l => Some l | Raise _ => None end)
  = Some 2%nat.
Proof. reflexivity. Qed.

(** C8, as the code has it: under a cap of 1, on a body whose
    [instructions] hold the first-post fragment at index 1, [get_tweets]
    still evaluates [instructions[2]['entries']] and slices it: when that
    value is a list (or a string), whatever it holds, the result is the
    mapped first post alone; when it is another value the slice raises,
    and when index 2 or its [entries] key is absent the subscript raises. *)
Theorem get_tweets_cap_one (data instructions first t : json) :
  subscripts data instructions_path = Ok instructions ->
  first_legacy_of instructions = Ok first ->
  tweet_parse first = Ok t ->
  match entries_of instructions with
  | Ok (JList _) | Ok (JStr _) => get_tweets_cap 1 data = Ok [t]
  | Ok _ => exists e, get_tweets_cap 1 data = Raise e
  | Raise e => get_tweets_cap 1 data = Raise e
  end.
Proof.
  intros Hp Hf Ht. rewrite (get_tweets_cap_eq 1 data instructions Hp).
  rewrite Hf; cbn [rbind]. rewrite Ht; cbn [rbind].
  destruct (entries_of instructions) as [entries|e]; cbn [rbind]; [|reflexivity].
  change (1 - 1) with 0.
  destruct entries; cbn [subscript_slice rbind]; try (eexists; reflexivity).
  - rewrite slice_to_0. reflexivity.
  - rewrite slice_to_0. reflexivity.
Qed.

Lemma get_tweets_cap_one_witness :
  get_tweets_cap 1 timeline_payload = Ok [JDict tweet_full_record].
Proof.
  apply (get_tweets_cap_one timeline_payload
           (JList [clear_instruction; pin_instruction;
                   JDict [("type", JStr "TimelineAddEntries");
                          ("entries", JList timeline_entries)]])
           (JDict tweet_full) (JDict tweet_full_record)); reflexivity.
Defined.

(** C8, as the specification words it, fails: the body has the first-post
    fragment at index 1 and no instruction at index 2, and under a cap of 1
    [get_tweets] raises [IndexError] where, with the entries present, it
    returns the one post. *)
Lemma get_tweets_cap_one_counterexample :
  subscripts timeline_without_entries instructions_path =
    Ok (JList [clear_instruction; pin_instruction]) /\
  first_legacy_of (JList [clear_instruction; pin_instruction]) = Ok (JDict tweet_full) /\
  tweet_parse (JDict tweet_full) = Ok (JDict tweet_full_record) /\
  get_tweets_cap 1 timeline_without_entries = Raise IndexError /\
  get_tweets_cap 1 timeline_payload = Ok [JDict tweet_full_record].
Proof. repeat split. Qed.

(** ** The interception router *)

Lemma fetches_app (l l' : list effect) :
  fetches (l ++ l') = (fetches l + fetches l')%nat.
Proof. unfold fetches. rewrite filter_app, length_app. reflexivity. Qed.

(** C9: when the URL of the request contains neither [UserByScreenName]
    nor [UserTweets], the handler returns, its only effect is the call
    [route.continue_()] (no fetch), and [self.data] is as before. *)
Theorem intercept_request_pass_through (route : Route) (request : Request) (st : state) :
  contains "UserByScreenName" (url request) = false ->
  contains "UserTweets" (url request) = false ->
  intercept_request route request st =
  (Ok tt, {| data := data st; log := log st ++ [RouteContinue] |}).
Proof.
  intros Hu Ht. unfold intercept_request. rewrite Hu, Ht. reflexivity.
Qed.

Lemma intercept_request_pass_through_witness :
  intercept_request (route_with profile_payload) other_request
    {| data := [("user", JDict (profile_of profile_legacy))]; log := [] |} =
  (Ok tt, {| data := [("user", JDict (profile_of profile_legacy))];
             log := [RouteContinue] |}).
Proof.
  apply (intercept_request_pass_through (route_with profile_payload) other_request
           {| data := [("user", JDict (profile_of profile_legacy))]; log := [] |});
    reflexivity.
Defined.

Lemma query_run (route : Route) (st : state) :
  query route st = (fetch_json route (fetches (log st)), queried st).
Proof.
  unfold query, bind, emit, lift, queried; simpl.
  rewrite fetches_app. simpl. rewrite Nat.add_0_r.
  rewrite <- app_assoc. reflexivity.
Qed.

Lemma intercept_request_eq (route : Route) (request : Request) :
  intercept_request route request =
  (profile_branch route request ;; tweets_branch route request ;; emit RouteContinue)%handler.
Proof. reflexivity. Qed.

(** What a branch does, case by case. *)
Lemma profile_branch_run (route : Route) (request : Request) (st : state) :
  profile_branch route request st =
  if contains "UserByScreenName" (url request) then
    match fetch_json route (fetches (log st)) with
    | Ok payload =>
        match get_profile payload with
        | Ok user => (Ok tt, {| data := dict_set "user" user (data st);
                                log := log (queried st) |})
        | Raise e => (Raise e, queried st)
        end
    | Raise e => (Raise e, queried st)
    end
  else (Ok tt, st).
Proof.
  unfold profile_branch. destruct (contains _ _); [|reflexivity].
  unfold bind. rewrite query_run.
  destruct (fetch_json route _) as [payload|e]; [|reflexivity].
  unfold lift. destruct (get_profile payload); reflexivity.
Qed.

Lemma tweets_branch_run (route : Route) (request : Request) (st : state) :
  tweets_branch route request st =
  if contains "UserTweets" (url request) then
    match fetch_json route (fetches (log st)) with
    | Ok payload =>
        match get_tweets payload with
        | Ok tweets => (Ok tt, {| data := dict_set "tweets" (JList tweets) (data st);
                                  log := log (queried st) |})
        | Raise e => (Raise e, queried st)
        end
    | Raise e => (Raise e, queried st)
    end
  else (Ok tt, st).
Proof.
  unfold tweets_branch. destruct (contains _ _); [|reflexivity].
  unfold bind. rewrite query_run.
  destruct (fetch_json route _) as [payload|e]; [|reflexivity].
  unfold lift. destruct (get_tweets payload); reflexivity.
Qed.

Lemma profile_branch_log (route : Route) (request : Request)
    (st st' : state) (r : result unit) :
  profile_branch route request st = (r, st') ->
  exists l, log st' = log st ++ l /\ ~ In RouteContinue l.
Proof.
  rewrite profile_branch_run.
  destruct (contains _ _);
    [destruct (fetch_json route _) as [payload|e];
     [destruct (get_profile payload)|]|];
    intros H; inversion H; subst; simpl;
    first [ exists [PrintRoute; RouteFetch]; split; [reflexivity|];
            simpl; intros Hin; in_cases Hin; discriminate Hin
          | exists []; split; [symmetry; apply app_nil_r | intros []] ].
Qed.

Lemma tweets_branch_log (route : Route) (request : Request)
    (st st' : state) (r : result unit) :
  tweets_branch route request st = (r, st') ->
  exists l, log st' = log st ++ l /\ ~ In RouteContinue l.
Proof.
  rewrite tweets_branch_run.
  destruct (contains _ _);
    [destruct (fetch_json route _) as [payload|e];
     [destruct (get_tweets payload)|]|];
    intros H; inversion H; subst; simpl;
    first [ exists [PrintRoute; RouteFetch]; split; [reflexivity|];
            simpl; intros Hin; in_cases Hin; discriminate Hin
          | exists []; split; [symmetry; apply app_nil_r | intros []] ].
Qed.

Lemma bind_run {A B : Type} (m : M A) (k : A -> M B) (st : state) :
  bind m k st =
  match m st with
  | (Ok a, st') => k a st'
  | (Raise e, st') => (Raise e, st')
  end.
Proof. reflexivity. Qed.

(** C2, as the code has it: the handler has no [try]; a failure of a
    mapper on a matched request leaves [intercept_request] as the
    exception it is.  Then nothing is written under the key of the mapper
    that failed ([self.data] is as before, or holds only the [user] record
    written by the profile branch when the failure is in the tweets
    branch), and [route.continue_()] is not called: whenever the handler
    raises, no [RouteContinue] is among its effects. *)
Theorem intercept_request_mapper_failure (route : Route) (request : Request) (st : state) :
  (forall payload e,
     contains "UserByScreenName" (url request) = true ->
     fetch_json route (fetches (log st)) = Ok payload ->
     get_profile payload = Raise e ->
     intercept_request route request st = (Raise e, queried st)) /\
  (forall payload e,
     contains "UserByScreenName" (url request) = false ->
     contains "UserTweets" (url request) = true ->
     fetch_json route (fetches (log st)) = Ok payload ->
     get_tweets payload = Raise e ->
     intercept_request route request st = (Raise e, queried st)) /\
  (forall payload1 user payload2 e,
     contains "UserByScreenName" (url request) = true ->
     contains "UserTweets" (url request) = true ->
     fetch_json route (fetches (log st)) = Ok payload1 ->
     get_profile payload1 = Ok user ->
     fetch_json route (S (fetches (log st))) = Ok payload2 ->
     get_tweets payload2 = Raise e ->
     intercept_request route request st =
     (Raise e, queried {| data := dict_set "user" user (data st);
                          log := log (queried st) |})) /\
  (forall e st',
     intercept_request route request st = (Raise e, st') ->
     exists l, log st' = log st ++ l /\ ~ In RouteContinue l).
Proof.
  rewrite intercept_request_eq. repeat split.
  - intros payload e Hu Hf Hp.
    rewrite bind_run, profile_branch_run, Hu, Hf, Hp. reflexivity.
  - intros payload e Hu Ht Hf Hp.
    rewrite bind_run, profile_branch_run, Hu.
    rewrite bind_run, tweets_branch_run, Ht, Hf, Hp. reflexivity.
  - intros payload1 user payload2 e Hu Ht Hf1 Hp Hf2 Hg.
    rewrite bind_run, profile_branch_run, Hu, Hf1, Hp.
    rewrite bind_run, tweets_branch_run, Ht.
    assert (Hn : fetches (log {| data := dict_set "user" user (data st);
                                 log := log (queried st) |}) = S (fetches (log st))).
    { simpl. rewrite fetches_app.
      change (fetches [PrintRoute; RouteFetch]) with 1%nat. apply Nat.add_1_r. }
    rewrite Hn, Hf2, Hg. reflexivity.
  - intros e st' H. rewrite bind_run in H.
    destruct (profile_branch route request st) as [[[]|e1] st1] eqn:E1.
    + apply profile_branch_log in E1. destruct E1 as (l1 & Hl1 & Hn1).
      rewrite bind_run in H.
      destruct (tweets_branch route request st1) as [[[]|e2] st2] eqn:E2.
      * unfold emit in H. discriminate H.
      * inversion H; subst e2 st2.
        apply tweets_branch_log in E2. destruct E2 as (l2 & Hl2 & Hn2).
        exists (l1 ++ l2). rewrite Hl2, Hl1, app_assoc. split; [reflexivity|].
        intros Hin. apply in_app_or in Hin. tauto.
    + inversion H; subst e1 st1.
      apply profile_branch_log in E1. exact E1.
Qed.

Lemma intercept_request_mapper_failure_witness :
  intercept_request (route_with error_body) profile_request {| data := []; log := [] |} =
  (Raise KeyError, {| data := []; log := [PrintRoute; RouteFetch] |}).
Proof.
  destruct (intercept_request_mapper_failure (route_with error_body) profile_request
              {| data := []; log := [] |}) as [H _].
  apply (H error_body KeyError); reflexivity.
Defined.

(** C2, as the specification words it, fails: the profile request is
    matched, the body fetched is an error body on which [get_profile]
    raises [KeyError]; the handler ends with that exception, and its
    effects stop at the fetch, without [route.continue_()]. *)
Lemma intercept_request_escape_counterexample :
  contains "UserByScreenName" (url profile_request) = true /\
  get_profile error_body = Raise KeyError /\
  intercept_request (route_with error_body) profile_request {| data := []; log := [] |} =
  (Raise KeyError, {| data := []; log := [PrintRoute; RouteFetch] |}) /\
  ~ In RouteContinue [PrintRoute; RouteFetch].
Proof.
  repeat split. intros H. in_cases H; discriminate H.
Qed.

(** *** The keys of the result store *)

Lemma dict_set_keys (k : string) (v : json) (d : dict) (k' : string) :
  In k' (keys (dict_set k v d)) <-> k' = k \/ In k' (keys d).
Proof.
  induction d as [|[k0 v0] d IH]; simpl.
  - intuition.
  - destruct (String.eqb k k0) eqn:E; simpl.
    + apply String.eqb_eq in E; subst k0. intuition.
    + unfold keys in IH. rewrite IH. intuition.
Qed.

Lemma dict_set_NoDup (k : string) (v : json) (d : dict) :
  NoDup (keys d) -> NoDup (keys (dict_set k v d)).
Proof.
  induction d as [|[k0 v0] d IH]; simpl; intros H.
  - repeat constructor. intros [].
  - inversion H as [|? ? Hn Hd]; subst.
    destruct (String.eqb k k0) eqn:E; simpl.
    + constructor; assumption.
    + constructor; [|apply IH; assumption].
      intros Hin. apply dict_set_keys in Hin. destruct Hin as [-> | Hin].
      * rewrite String.eqb_refl in E. discriminate E.
      * apply Hn. exact Hin.
Qed.

Lemma dict_get_set (k : string) (v : json) (d : dict) (k' : string) :
  dict_get k' (dict_set k v d) = if String.eqb k' k then Some v else dict_get k' d.
Proof.
  induction d as [|[k0 v0] d IH]; simpl.
  - reflexivity.
  - destruct (String.eqb k k0) eqn:E; simpl.
    + apply String.eqb_eq in E; subst k0.
      destruct (String.eqb k' k); reflexivity.
    + rewrite IH. destruct (String.eqb k' k0) eqn:E0; [|reflexivity].
      apply String.eqb_eq in E0; subst k0.
      destruct (String.eqb k' k) eqn:E1; [|reflexivity].
      apply String.eqb_eq in E1; subst k'. rewrite String.eqb_refl in E. discriminate E.
Qed.

Lemma store_inv_set_user (d : dict) (payload user : json) :
  get_profile payload = Ok user -> store_inv d -> store_inv (dict_set "user" user d).
Proof.
  intros Hp (Hnd & Hk & Hu & Ht). repeat split.
  - apply dict_set_NoDup; exact Hnd.
  - intros k Hin. apply dict_set_keys in Hin. destruct Hin as [-> | Hin]; auto.
  - intros v. rewrite dict_get_set. simpl. intros H; inversion H; subst.
    exists payload; exact Hp.
  - intros v. rewrite dict_get_set. simpl. apply Ht.
Qed.

Lemma store_inv_set_tweets (d : dict) (payload : json) (tweets : list json) :
  get_tweets payload = Ok tweets -> store_inv d ->
  store_inv (dict_set "tweets" (JList tweets) d).
Proof.
  intros Hp (Hnd & Hk & Hu & Ht). repeat split.
  - apply dict_set_NoDup; exact Hnd.
  - intros k Hin. apply dict_set_keys in Hin. destruct Hin as [-> | Hin]; auto.
  - intros v. rewrite dict_get_set. simpl. apply Hu.
  - intros v. rewrite dict_get_set. simpl. intros H; inversion H; subst.
    exists payload, tweets; auto.
Qed.

Lemma profile_branch_inv (route : Route) (request : Request)
    (st st' : state) (r : result unit) :
  profile_branch route request st = (r, st') ->
  store_inv (data st) -> store_inv (data st').
Proof.
  rewrite profile_branch_run.
  destruct (contains _ _);
    [destruct (fetch_json route _) as [payload|e];
     [destruct (get_profile payload) as [user|e] eqn:Hp|]|];
    intros H Hinv; inversion H; subst; simpl; try exact Hinv.
  eapply store_inv_set_user; eassumption.
Qed.

Lemma tweets_branch_inv (route : Route) (request : Request)
    (st st' : state) (r : result unit) :
  tweets_branch route request st = (r, st') ->
  store_inv (data st) -> store_inv (data st').
Proof.
  rewrite tweets_branch_run.
  destruct (contains _ _);
    [destruct (fetch_json route _) as [payload|e];
     [destruct (get_tweets payload) as [tweets|e] eqn:Hp|]|];
    intros H Hinv; inversion H; subst; simpl; try exact Hinv.
  eapply store_inv_set_tweets; eassumption.
Qed.

(** The handler keeps the invariant, whether it returns or raises. *)
Lemma intercept_request_inv (route : Route) (request : Request)
    (st st' : state) (r : result unit) :
  intercept_request route request st = (r, st') ->
  store_inv (data st) -> store_inv (data st').
Proof.
  rewrite intercept_request_eq, bind_run. intros H Hinv.
  destruct (profile_branch route request st) as [[[]|e1] st1] eqn:E1;
    apply profile_branch_inv in E1; try exact Hinv.
  - rewrite bind_run in H.
    destruct (tweets_branch route request st1) as [[[]|e2] st2] eqn:E2;
      apply tweets_branch_inv in E2; try exact E1.
    + unfold emit in H. inversion H; subst. exact E2.
    + inversion H; subst. exact E2.
  - inversion H; subst. exact E1.
Qed.

Lemma handle_inv (d : dict) (rr : Route * Request) :
  store_inv d -> store_inv (handle d rr).
Proof.
  intros Hinv. unfold handle.
  destruct (intercept_request (fst rr) (snd rr) {| data := d; log := [] |})
    as [r st'] eqn:E.
  apply intercept_request_inv in E; [exact E | exact Hinv].
Qed.

Lemma fold_handle_inv (reqs : list (Route * Request)) (d : dict) :
  store_inv d -> store_inv (fold_left handle reqs d).
Proof.
  revert d; induction reqs as [|rr reqs IH]; simpl; intros d Hinv.
  - exact Hinv.
  - apply IH. apply handle_inv. exact Hinv.
Qed.

(** C4, as the code has it: after the interceptions of a session, run
    from the empty [self.data], the store has at most two keys, [user] and
    [tweets] and no other; [user], when there, holds a record of
    [get_profile] and [tweets], when there, a list of [get_tweets]. *)
Theorem session_store_keys (reqs : list (Route * Request)) :
  (List.length (keys (session reqs)) <= 2)%nat /\
  NoDup (keys (session reqs)) /\
  (forall k, In k (keys (session reqs)) -> k = "user" \/ k = "tweets") /\
  (forall v, dict_get "user" (session reqs) = Some v ->
     exists payload, get_profile payload = Ok v) /\
  (forall v, dict_get "tweets" (session reqs) = Some v ->
     exists payload tweets, get_tweets payload = Ok tweets /\ v = JList tweets).
Proof.
  assert (Hinv : store_inv (session reqs)).
  { apply fold_handle_inv. repeat split; simpl; try constructor;
      try contradiction; discriminate. }
  destruct Hinv as (Hnd & Hk & Hu & Ht).
  split; [|repeat split; assumption].
  change 2%nat with (List.length ["user"; "tweets"]).
  apply NoDup_incl_length; [exact Hnd|].
  intros k Hin. destruct (Hk k Hin) as [-> | ->]; simpl; auto.
Qed.

(** C4, as the specification words it, fails: after a session that
    intercepts the tweets request, the store has the key [tweets], and no
    key [posts]. *)
Lemma session_posts_key_counterexample :
  session [(route_with timeline_payload, tweets_request)] =
    [("tweets", JList [JDict tweet_full_record;
                       JDict (base_tweet tweet_fields
                                (JStr "Mon Mar 03 10:00:00 +0000 2025")
                                (JStr "hello") (JInt 1) (JInt 2) (JInt 3));
                       JDict tweet_full_record])] /\
  In "tweets" (keys (session [(route_with timeline_payload, tweets_request)])) /\
  ~ In "posts" (keys (session [(route_with timeline_payload, tweets_request)])) /\
  "tweets" <> "user" /\ "tweets" <> "posts".
Proof.
  repeat split; try discriminate.
  - simpl; auto.
  - intros H. in_cases H; discriminate H.
Qed.

(** A session that meets both requests, and one more. *)
Example session_both :
  keys (session [(route_with profile_payload, profile_request);
                 (route_with profile_payload, other_request);
                 (route_with timeline_payload, tweets_request)]) =
  ["user"; "tweets"].
Proof. reflexivity. Qed.

(** * Further properties of the mappers and of the router *)

(** ** Exceptions of the operations *)

Lemma get_raise (v : json) (k : string) (default : json) (e : exn) :
  get v k default = Raise e -> e = AttributeError /\ forall d, v <> JDict d.
Proof.
  destruct v; simpl; intros H;
    try (inversion H; split; [reflexivity | intros d' Hd'; discriminate Hd']).
  destruct (dict_get k d); discriminate H.
Qed.

Lemma iter_raise (v : json) (e : exn) : iter v = Raise e -> e = TypeError.
Proof. destruct v; simpl; intros H; inversion H; reflexivity. Qed.

Lemma subscript_int_raise (v : json) (i : nat) (e : exn) :
  subscript_int v i = Raise e -> e = KeyError \/ e = TypeError \/ e = IndexError.
Proof.
  destruct v; simpl; intros H; try (inversion H; auto; fail).
  - destruct (nth_error (py_chars s) i); inversion H; auto.
  - destruct (nth_error l i); inversion H; auto.
Qed.

Lemma subscript_slice_raise (v : json) (stop : Z) (e : exn) :
  subscript_slice v stop = Raise e -> e = TypeError.
Proof. destruct v; simpl; intros H; inversion H; reflexivity. Qed.

Lemma mapM_raise_in {A B : Type} (f : A -> result B) (l : list A) (e : exn) :
  mapM f l = Raise e -> exists x, In x l /\ f x = Raise e.
Proof.
  intros H. apply mapM_raise in H.
  destruct H as (done & x & todo & ys & -> & _ & Hx).
  exists x. split; [apply in_elt | exact Hx].
Qed.

Lemma py_chars_nonempty (c : ascii) (s : string) : py_chars (String c s) <> [].
Proof.
  simpl. destruct (py_chars s); [discriminate|].
  destruct (starts_char s); discriminate.
Qed.

Lemma subscript_not_dict (v : json) (k : string) :
  (forall d, v <> JDict d) -> subscript v k = Raise TypeError.
Proof.
  intros H. destruct v; try reflexivity. exfalso; eapply H; reflexivity.
Qed.

(** The classes of what [tweet_parse] raises. *)
Lemma tweet_parse_exn (legacy : json) (e : exn) :
  tweet_parse legacy = Raise e ->
  e = KeyError \/ e = TypeError \/ e = AttributeError.
Proof.
  unfold tweet_parse. intros H.
  do 5 (apply rbind_raise in H;
        destruct H as [H | (? & _ & H)]; [apply subscript_raise in H; tauto|]).
  do 3 (apply rbind_raise in H;
        destruct H as [H | (? & _ & H)]; [apply get_raise in H; tauto|]).
  destruct (truthy _); [|discriminate H].
  apply rbind_raise in H.
  destruct H as [H | (items & _ & H)]; [apply iter_raise in H; tauto|].
  apply rbind_raise in H. destruct H as [H | (? & _ & H)]; [|discriminate H].
  apply mapM_raise_in in H. destruct H as (item & _ & H).
  apply media_item_raise in H. tauto.
Qed.

(** ** The post mapper: errors and shape of the record *)

(** X1: on a fragment that lacks any one of the five keys it subscripts,
    [tweet_parse] raises [KeyError], whatever else the fragment holds. *)
Theorem tweet_parse_missing_field (d : dict) (k : string) :
  In k subscripted_keys ->
  dict_get k d = None ->
  tweet_parse (JDict d) = Raise KeyError.
Proof.
  intros Hin Hnone. unfold tweet_parse. cbn [subscript].
  in_cases Hin; subst k;
    repeat (rewrite ?Hnone;
            match goal with
            | |- context [match dict_get ?key d with _ => _ end] =>
                destruct (dict_get key d); cbn [rbind]; try reflexivity
            end);
    try discriminate Hnone; reflexivity.
Qed.

Lemma tweet_parse_missing_field_witness :
  tweet_parse (JDict [("created_at", JStr "Mon Mar 03 10:00:00 +0000 2025");
                      ("full_text", JStr "hello");
                      ("quote_count", JInt 1);
                      ("retweet_count", JInt 3)]) = Raise KeyError.
Proof.
  apply (tweet_parse_missing_field _ "reply_count").
  - simpl; auto.
  - reflexivity.
Defined.

(** X2: what [tweet_parse] raises is a [KeyError], a [TypeError] or an
    [AttributeError], and on a value that is not an object it is the
    [TypeError] of the first subscript. *)
Theorem tweet_parse_raises (legacy : json) (e : exn) :
  tweet_parse legacy = Raise e ->
  (e = KeyError \/ e = TypeError \/ e = AttributeError) /\
  ((forall d, legacy <> JDict d) -> e = TypeError).
Proof.
  intros H. split; [eapply tweet_parse_exn; exact H|].
  intros Hnd. unfold tweet_parse in H.
  rewrite (subscript_not_dict legacy "created_at" Hnd) in H.
  inversion H; reflexivity.
Qed.

Lemma tweet_parse_raises_witness :
  (TypeError = KeyError \/ TypeError = TypeError \/ TypeError = AttributeError) /\
  ((forall d, JList [JDict tweet_fields] <> JDict d) -> TypeError = TypeError).
Proof.
  apply (tweet_parse_raises (JList [JDict tweet_fields]) TypeError).
  reflexivity.
Defined.

Lemma get_default_some (k : string) (default : json) (d : dict) (v : json) :
  dict_get k d = Some v -> get_default k default d = v.
Proof. intros H. unfold get_default. rewrite H. reflexivity. Qed.

(** What the media part stores is a list with an item for each of the
    items it ran over, and it ran over one at least. *)
Lemma media_of_some (legacy v : json) :
  media_of legacy = Ok (Some v) ->
  exists items media,
    items <> [] /\ mapM media_item items = Ok media /\ v = JList media.
Proof.
  unfold media_of. intros H.
  apply rbind_ok in H. destruct H as (entities & _ & H).
  apply rbind_ok in H. destruct H as (tweet_media & _ & H).
  destruct (truthy tweet_media) eqn:Htruthy; [|discriminate H].
  apply rbind_ok in H. destruct H as (items & Hiter & H).
  apply rbind_ok in H. destruct H as (media & Hmap & H).
  inversion H; subst v. exists items, media.
  split; [|split; [exact Hmap | reflexivity]].
  destruct tweet_media as [| b | n | f | s | l | d];
    simpl in Htruthy, Hiter; try discriminate Hiter;
    inversion Hiter; subst items.
  - destruct s as [|c s]; [discriminate Htruthy|].
    intros Hnil. apply map_eq_nil in Hnil. revert Hnil. apply py_chars_nonempty.
  - destruct l; [discriminate Htruthy | discriminate].
  - destruct d; [discriminate Htruthy | discriminate].
Qed.

(** X3: a record [tweet_parse] returns has the six keys [created_at],
    [text], [quote_count], [reply_count], [retweet_count],
    [bookmark_count], in this order, and nothing else but, possibly, a
    seventh key [media] after them; the value under [media] is then a list
    that is not empty, of objects with the single key [url]. *)
Theorem tweet_parse_record_keys (legacy t : json) :
  tweet_parse legacy = Ok t ->
  exists r,
    t = JDict r /\
    (keys r = tweet_keys \/
     (keys r = tweet_keys ++ ["media"] /\
      exists m ms,
        dict_get "media" r = Some (JList (m :: ms)) /\
        Forall (fun x => exists u, x = JDict [("url", u)]) (m :: ms))).
Proof.
  intros H.
  destruct (tweet_parse_ok_inv legacy t H) as (d & c & tx & q & r & rt & -> & Hf).
  rewrite (tweet_parse_dict d c tx q r rt Hf) in H.
  apply rbind_ok in H. destruct H as (m & Hm & H). inversion H; subst t; clear H.
  eexists. split; [reflexivity|].
  destruct m as [v|]; [right | left; reflexivity].
  split; [reflexivity|].
  apply media_of_some in Hm. destruct Hm as (items & media & Hne & Hmap & ->).
  assert (Hlen := mapM_length _ _ _ Hmap).
  apply mapM_Forall2 in Hmap.
  destruct media as [|m ms]; [destruct items; [congruence | discriminate Hlen]|].
  exists m, ms. split; [reflexivity|].
  clear Hlen Hne. revert Hmap. generalize (m :: ms) as out.
  intros out Hall. induction Hall as [|x y xs ys Hxy _ IH]; constructor; [|exact IH].
  apply media_item_ok_inv in Hxy. destruct Hxy as (u & _ & ->). exists u; reflexivity.
Qed.

Lemma tweet_parse_record_keys_witness :
  exists r,
    JDict tweet_full_record = JDict r /\
    (keys r = tweet_keys \/
     (keys r = tweet_keys ++ ["media"] /\
      exists m ms,
        dict_get "media" r = Some (JList (m :: ms)) /\
        Forall (fun x => exists u, x = JDict [("url", u)]) (m :: ms))).
Proof.
  apply (tweet_parse_record_keys (JDict tweet_full) (JDict tweet_full_record)).
  reflexivity.
Defined.

(** X4: a [media] value that is false for Python ([null], [false], [0],
    an empty string, list or object) is as good as none: with the five
    subscripted fields the record comes without a [media] key, and without
    an error. *)
Theorem tweet_parse_falsy_media
    (d e : dict) (created_at text quote reply retweet v : json) :
  mandatory_fields d created_at text quote reply retweet ->
  dict_get "entities" d = Some (JDict e) ->
  dict_get "media" e = Some v ->
  truthy v = false ->
  tweet_parse (JDict d) = Ok (JDict (base_tweet d created_at text quote reply retweet)).
Proof.
  intros Hf He Hm Hv. rewrite (tweet_parse_dict d _ _ _ _ _ Hf).
  unfold media_of. rewrite get_dict; cbn [rbind].
  rewrite (get_default_some _ _ _ _ He).
  rewrite get_dict; cbn [rbind].
  rewrite (get_default_some _ _ _ _ Hm), Hv.
  reflexivity.
Qed.

Lemma tweet_parse_falsy_media_witness :
  tweet_parse (JDict (tweet_fields ++ [("entities", JDict [("media", JNone)])])) =
  Ok (JDict (base_tweet (tweet_fields ++ [("entities", JDict [("media", JNone)])])
               (JStr "Mon Mar 03 10:00:00 +0000 2025") (JStr "hello")
               (JInt 1) (JInt 2) (JInt 3))).
Proof.
  apply (tweet_parse_falsy_media _ [("media", JNone)] _ _ _ _ _ JNone).
  - repeat split.
  - reflexivity.
  - reflexivity.
  - reflexivity.
Defined.

(** X5: an [entities] key that is present with a value that is not an
    object ([null], say) makes [tweet_parse] raise [AttributeError], the
    five subscripted fields being there; only a missing [entities] key
    gets the default. *)
Theorem tweet_parse_entities_not_object
    (d : dict) (created_at text quote reply retweet v : json) :
  mandatory_fields d created_at text quote reply retweet ->
  dict_get "entities" d = Some v ->
  (forall e, v <> JDict e) ->
  tweet_parse (JDict d) = Raise AttributeError.
Proof.
  intros Hf He Hv. rewrite (tweet_parse_dict d _ _ _ _ _ Hf).
  unfold media_of. rewrite get_dict; cbn [rbind]. unfold get_default. rewrite He.
  destruct v; try reflexivity. exfalso; eapply Hv; reflexivity.
Qed.

Lemma tweet_parse_entities_not_object_witness :
  tweet_parse (JDict (tweet_fields ++ [("entities", JNone)])) = Raise AttributeError.
Proof.
  apply (tweet_parse_entities_not_object _
           (JStr "Mon Mar 03 10:00:00 +0000 2025") (JStr "hello")
           (JInt 1) (JInt 2) (JInt 3) JNone).
  - repeat split.
  - reflexivity.
  - intros e H; discriminate H.
Defined.

(** X6: a [media] value that is true for Python and is not a list (a
    number, [true], a string, an object) makes [tweet_parse] raise
    [TypeError]. *)
Theorem tweet_parse_media_not_list
    (d e : dict) (created_at text quote reply retweet v : json) :
  mandatory_fields d created_at text quote reply retweet ->
  dict_get "entities" d = Some (JDict e) ->
  dict_get "media" e = Some v ->
  truthy v = true ->
  (forall l, v <> JList l) ->
  tweet_parse (JDict d) = Raise TypeError.
Proof.
  intros Hf He Hm Hv Hnl. rewrite (tweet_parse_dict d _ _ _ _ _ Hf).
  unfold media_of. rewrite get_dict; cbn [rbind].
  rewrite (get_default_some _ _ _ _ He).
  rewrite get_dict; cbn [rbind].
  rewrite (get_default_some _ _ _ _ Hm), Hv.
  destruct v as [| b | n | f | s | l | d0]; try reflexivity; try discriminate Hv.
  - destruct s as [|c s]; [discriminate Hv|]. cbn [iter rbind].
    destruct (py_chars (String c s)) as [|h tl] eqn:E;
      [exfalso; revert E; apply py_chars_nonempty|].
    reflexivity.
  - exfalso; eapply Hnl; reflexivity.
  - destruct d0 as [|[k x] d0]; [discriminate Hv|]. reflexivity.
Qed.

Lemma tweet_parse_media_not_list_witness :
  tweet_parse (JDict (tweet_fields ++
    [("entities", JDict [("media", JStr "https://pbs.twimg.com/media/1.jpg")])])) =
  Raise TypeError.
Proof.
  apply (tweet_parse_media_not_list _
           [("media", JStr "https://pbs.twimg.com/media/1.jpg")]
           (JStr "Mon Mar 03 10:00:00 +0000 2025") (JStr "hello")
           (JInt 1) (JInt 2) (JInt 3) (JStr "https://pbs.twimg.com/media/1.jpg")).
  - repeat split.
  - reflexivity.
  - reflexivity.
  - reflexivity.
  - intros l H; discriminate H.
Defined.

(** X7: [tweet_parse] reads seven keys of a fragment and no other: two
    fragments that agree on [created_at], [full_text], [quote_count],
    [reply_count], [retweet_count], [bookmark_count] and [entities] get the
    same record, or the same exception. *)
Theorem tweet_parse_frame (d1 d2 : dict) :
  (forall k, In k read_keys -> dict_get k d1 = dict_get k d2) ->
  tweet_parse (JDict d1) = tweet_parse (JDict d2).
Proof.
  intros H. unfold tweet_parse, get. cbn [subscript].
  rewrite (H "created_at"), (H "full_text"), (H "quote_count"),
    (H "reply_count"), (H "retweet_count"), (H "bookmark_count"),
    (H "entities") by (simpl; auto 10).
  reflexivity.
Qed.

Lemma tweet_parse_frame_witness :
  tweet_parse (JDict (("lang", JStr "en") :: rev tweet_full)) =
  tweet_parse (JDict tweet_full).
Proof.
  apply (tweet_parse_frame (("lang", JStr "en") :: rev tweet_full) tweet_full).
  intros k Hin. in_cases Hin; subst k; reflexivity.
Defined.

(** ** The profile mapper: what it reads *)

(** X8: [get_profile] reads seven keys of the [legacy] object and no
    other: two bodies whose [legacy] objects agree on them get the same
    record. *)
Theorem get_profile_frame (data1 data2 : json) (legacy1 legacy2 : dict) :
  subscripts data1 profile_path = Ok (JDict legacy1) ->
  subscripts data2 profile_path = Ok (JDict legacy2) ->
  (forall k src, In (k, src) profile_fields ->
     dict_get src legacy1 = dict_get src legacy2) ->
  get_profile data1 = get_profile data2.
Proof.
  intros H1 H2 Hagree.
  rewrite (get_profile_ok data1 legacy1 H1), (get_profile_ok data2 legacy2 H2).
  do 2 f_equal. unfold profile_of. apply map_ext_in.
  intros [k src] Hin. simpl. unfold get_default.
  rewrite (Hagree k src Hin). reflexivity.
Qed.

Lemma get_profile_frame_witness :
  get_profile
    (JDict [("data", JDict [("user", JDict [("result",
       JDict [("legacy", JDict (("verified", JBool true) :: rev profile_legacy));
              ("rest_id", JStr "44196397")])])]);
            ("extensions", JDict [])]) =
  get_profile profile_payload.
Proof.
  apply (get_profile_frame _ profile_payload
           (("verified", JBool true) :: rev profile_legacy) profile_legacy).
  - reflexivity.
  - reflexivity.
  - intros k src Hin. in_cases Hin; inversion Hin; subst; reflexivity.
Defined.

(** ** The timeline extractor: order, cut and errors *)

Lemma slice_to_firstn {A : Type} (stop : Z) (l : list A) :
  0 <= stop -> slice_to stop l = firstn (Z.to_nat stop) l.
Proof.
  intros Hs. unfold slice_to.
  destruct (stop <? 0) eqn:E; [apply Z.ltb_lt in E; lia|].
  destruct (Z.le_gt_cases stop (Z.of_nat (List.length l))) as [Hle | Hgt].
  - rewrite Z.min_l by lia. reflexivity.
  - rewrite Z.min_r by lia. rewrite Nat2Z.id.
    rewrite firstn_all. symmetry. apply firstn_all2. lia.
Qed.

(** [get_tweets] on a body with the positions it walks through. *)
Lemma get_tweets_cap_run (cap : Z) (data first : json) (entries : list json) :
  timeline_shape data first entries ->
  get_tweets_cap cap data =
  t <- tweet_parse first ;;
  rest <- mapM entry_tweet (slice_to (cap - 1) entries) ;;
  Ok (t :: rest).
Proof.
  intros (instrs & i1 & i2 & Hp & H1 & Hf & H2 & He).
  rewrite (get_tweets_cap_eq cap data (JList instrs) Hp).
  unfold first_legacy_of, entries_of, subscript_int.
  rewrite H1, H2; cbn [rbind]. rewrite Hf; cbn [rbind].
  destruct (tweet_parse first) as [t|e]; cbn [rbind]; [|reflexivity].
  rewrite He; cbn [rbind subscript_slice iter]. reflexivity.
Qed.

Lemma entry_tweet_mapped (entry r : json) :
  entry_tweet entry = Ok r <-> mapped_entry entry r.
Proof.
  unfold entry_tweet, mapped_entry. split.
  - intros H. apply rbind_ok in H. exact H.
  - intros (legacy & Hl & Ht). rewrite Hl. exact Ht.
Qed.

Lemma mapM_entry_tweet (entries rest : list json) :
  mapM entry_tweet entries = Ok rest <-> Forall2 mapped_entry entries rest.
Proof.
  rewrite mapM_Forall2. split; intros H; (eapply Forall2_impl; [|exact H]);
    intros entry r; apply entry_tweet_mapped.
Qed.

(** The classes of what [get_tweets] raises. *)
Lemma get_tweets_cap_exn (cap : Z) (data : json) (e : exn) :
  get_tweets_cap cap data = Raise e -> builtin_exn e.
Proof.
  unfold get_tweets_cap, builtin_exn. intros H.
  apply rbind_raise in H.
  destruct H as [H | (instructions & _ & H)]; [apply subscripts_raise in H; tauto|].
  apply rbind_raise in H.
  destruct H as [H | (i1 & _ & H)]; [apply subscript_int_raise in H; tauto|].
  apply rbind_raise in H.
  destruct H as [H | (fl & _ & H)]; [apply subscripts_raise in H; tauto|].
  apply rbind_raise in H.
  destruct H as [H | (first & _ & H)]; [apply tweet_parse_exn in H; tauto|].
  apply rbind_raise in H.
  destruct H as [H | (i2 & _ & H)]; [apply subscript_int_raise in H; tauto|].
  apply rbind_raise in H.
  destruct H as [H | (ot & _ & H)]; [apply subscript_raise in H; tauto|].
  apply rbind_raise in H.
  destruct H as [H | (sl & _ & H)]; [apply subscript_slice_raise in H; tauto|].
  apply rbind_raise in H.
  destruct H as [H | (items & _ & H)]; [apply iter_raise in H; tauto|].
  apply rbind_raise in H. destruct H as [H | (rest & _ & H)]; [|discriminate H].
  apply mapM_raise_in in H. destruct H as (entry & _ & H).
  unfold entry_tweet in H. apply rbind_raise in H.
  destruct H as [H | (legacy & _ & H)]; [apply subscripts_raise in H; tauto|].
  apply tweet_parse_exn in H. tauto.
Qed.

(** X9: on a timeline body of the documented shape, the records after
    the first are those of the first 49 entries, one for each, in the
    order of the entries: nothing is dropped, merged or moved. *)
Theorem get_tweets_in_order (data first : json) (entries : list json) :
  valid_timeline data first entries ->
  exists t rest,
    get_tweets data = Ok (t :: rest) /\
    Forall2 mapped_entry (firstn 49 entries) rest.
Proof.
  intros Hv.
  destruct (get_tweets_cap_valid TWIT_COUNT data first entries Hv)
    as (t & rest & _ & Hrest & Hg).
  exists t, rest. split; [exact Hg|].
  apply mapM_entry_tweet. rewrite <- Hrest.
  rewrite slice_to_firstn by (unfold TWIT_COUNT; lia). reflexivity.
Qed.

Lemma get_tweets_in_order_witness :
  exists t rest,
    get_tweets timeline_payload = Ok (t :: rest) /\
    Forall2 mapped_entry (firstn 49 timeline_entries) rest.
Proof.
  apply (get_tweets_in_order timeline_payload (JDict tweet_full) timeline_entries).
  exact timeline_payload_valid.
Defined.

(** X10: the entries past the cut are not looked at.  When the first
    post and the first [cap - 1] entries are of the documented shape,
    [get_tweets] returns their records whatever follows them in the list,
    be it values that wrap no post. *)
Theorem get_tweets_ignores_past_cap
    (cap : Z) (data first : json) (good junk : list json) :
  timeline_shape data first (good ++ junk) ->
  post_fragment first ->
  Forall post_entry good ->
  Z.of_nat (List.length good) = cap - 1 ->
  exists t rest,
    tweet_parse first = Ok t /\
    Forall2 mapped_entry good rest /\
    get_tweets_cap cap data = Ok (t :: rest).
Proof.
  intros Hshape Hfirst Hgood Hlen.
  rewrite (get_tweets_cap_run cap data first (good ++ junk) Hshape).
  destruct (tweet_parse_total first Hfirst) as [t Ht].
  rewrite slice_to_firstn by lia.
  replace (Z.to_nat (cap - 1)) with (List.length good + 0)%nat by lia.
  rewrite firstn_app_2, firstn_0, app_nil_r.
  destruct (mapM_total entry_tweet good) as [rest Hrest].
  { eapply Forall_impl; [|exact Hgood].
    intros entry (legacy & Hl & Hpl). unfold entry_tweet. rewrite Hl; cbn [rbind].
    apply tweet_parse_total; exact Hpl. }
  exists t, rest. split; [exact Ht|]. split; [apply mapM_entry_tweet; exact Hrest|].
  rewrite Ht; cbn [rbind]. rewrite Hrest. reflexivity.
Qed.

Lemma get_tweets_ignores_past_cap_witness :
  exists t rest,
    tweet_parse (JDict tweet_full) = Ok t /\
    Forall2 mapped_entry (repeat (wrap_post (JDict tweet_fields)) 49) rest /\
    get_tweets (timeline_with (repeat (wrap_post (JDict tweet_fields)) 49
                               ++ [cursor_entry; JNone])) = Ok (t :: rest).
Proof.
  apply (get_tweets_ignores_past_cap TWIT_COUNT
           (timeline_with (repeat (wrap_post (JDict tweet_fields)) 49
                           ++ [cursor_entry; JNone]))
           (JDict tweet_full)
           (repeat (wrap_post (JDict tweet_fields)) 49) [cursor_entry; JNone]).
  - do 3 eexists. repeat split.
  - exact tweet_full_fragment.
  - apply Forall_forall. intros entry Hin. apply repeat_spec in Hin. subst entry.
    eexists. split; [reflexivity | exact tweet_fields_fragment].
  - reflexivity.
Defined.

(** X11: one entry before the cut that wraps no post (a cursor entry,
    say) loses the whole batch: [get_tweets] raises a built-in exception
    and returns no list, whatever the first post and the other entries
    are. *)
Theorem get_tweets_bad_entry (cap : Z) (data first : json) (entries : list json) :
  timeline_shape data first entries ->
  1 <= cap ->
  Exists (fun entry => forall r, entry_tweet entry <> Ok r)
         (firstn (Z.to_nat (cap - 1)) entries) ->
  exists e, get_tweets_cap cap data = Raise e /\ builtin_exn e.
Proof.
  intros Hshape Hcap Hex.
  assert (H : exists e, get_tweets_cap cap data = Raise e).
  { rewrite (get_tweets_cap_run cap data first entries Hshape).
    destruct (tweet_parse first) as [t|e]; cbn [rbind]; [|eexists; reflexivity].
    rewrite slice_to_firstn by lia.
    destruct (mapM_Exists_raise entry_tweet _ Hex) as (e & _ & _ & _ & Hm).
    rewrite Hm. eexists; reflexivity. }
  destruct H as [e He]. exists e. split; [exact He|].
  eapply get_tweets_cap_exn; exact He.
Qed.

Lemma get_tweets_bad_entry_witness :
  exists e,
    get_tweets (timeline_with [wrap_post (JDict tweet_fields); cursor_entry]) = Raise e /\
    builtin_exn e.
Proof.
  apply (get_tweets_bad_entry TWIT_COUNT
           (timeline_with [wrap_post (JDict tweet_fields); cursor_entry])
           (JDict tweet_full) [wrap_post (JDict tweet_fields); cursor_entry]).
  - do 3 eexists. repeat split.
  - unfold TWIT_COUNT; lia.
  - apply Exists_cons_tl. apply Exists_cons_hd. intros r H. discriminate H.
Defined.

(** X12: when [tweet_parse] raises on the first-post fragment,
    [get_tweets] raises the same exception, whatever index 2 holds and
    whatever the cap. *)
Theorem get_tweets_first_post_required
    (cap : Z) (data instructions first : json) (e : exn) :
  subscripts data instructions_path = Ok instructions ->
  first_legacy_of instructions = Ok first ->
  tweet_parse first = Raise e ->
  get_tweets_cap cap data = Raise e.
Proof.
  intros Hp Hf Ht. rewrite (get_tweets_cap_eq cap data instructions Hp).
  rewrite Hf; cbn [rbind]. rewrite Ht. reflexivity.
Qed.

Lemma get_tweets_first_post_required_witness :
  get_tweets
    (timeline_body [clear_instruction;
                    JDict [("entry", wrap_post (JDict tweet_no_date))];
                    JDict [("entries", JList timeline_entries)]]) = Raise KeyError.
Proof.
  apply (get_tweets_first_post_required TWIT_COUNT _
           (JList [clear_instruction;
                   JDict [("entry", wrap_post (JDict tweet_no_date))];
                   JDict [("entries", JList timeline_entries)]])
           (JDict tweet_no_date) KeyError); reflexivity.
Defined.

(** X13: with fewer than three instructions in the list [get_tweets]
    never returns: it raises [IndexError] at [instructions[1]] when there
    are fewer than two, and otherwise what the first post raises or the
    [IndexError] of [instructions[2]]. *)
Theorem get_tweets_short_instructions
    (cap : Z) (data : json) (instructions : list json) :
  subscripts data instructions_path = Ok (JList instructions) ->
  (List.length instructions < 3)%nat ->
  exists e,
    get_tweets_cap cap data = Raise e /\
    ((List.length instructions < 2)%nat -> e = IndexError) /\
    (e <> IndexError ->
     exists first, first_legacy_of (JList instructions) = Raise e \/
                   (first_legacy_of (JList instructions) = Ok first /\
                    tweet_parse first = Raise e)).
Proof.
  intros Hp Hlen. rewrite (get_tweets_cap_eq cap data (JList instructions) Hp).
  destruct instructions as [|i0 [|i1 [|i2 rest]]]; simpl in Hlen; try lia.
  - exists IndexError. split; [reflexivity|]. split; [reflexivity | congruence].
  - exists IndexError. split; [reflexivity|]. split; [reflexivity | congruence].
  - destruct (first_legacy_of (JList [i0; i1])) as [first|e] eqn:Hf; cbn [rbind].
    + destruct (tweet_parse first) as [t|e] eqn:Ht; cbn [rbind].
      * exists IndexError. split; [reflexivity|]. split; [reflexivity | congruence].
      * exists e. split; [reflexivity|]. split; [simpl; lia|].
        intros _. exists first. right. split; [reflexivity | exact Ht].
    + exists e. split; [reflexivity|]. split; [simpl; lia|].
      intros _. exists JNone. left. reflexivity.
Qed.

Lemma get_tweets_short_instructions_witness :
  exists e,
    get_tweets (timeline_body [clear_instruction]) = Raise e /\
    ((List.length [clear_instruction] < 2)%nat -> e = IndexError) /\
    (e <> IndexError ->
     exists first, first_legacy_of (JList [clear_instruction]) = Raise e \/
                   (first_legacy_of (JList [clear_instruction]) = Ok first /\
                    tweet_parse first = Raise e)).
Proof.
  apply (get_tweets_short_instructions TWIT_COUNT
           (timeline_body [clear_instruction]) [clear_instruction]).
  - reflexivity.
  - simpl; lia.
Defined.

(** X14: every exception of [get_tweets] is one of the built-ins
    [KeyError], [TypeError], [IndexError] and [AttributeError]; none comes
    with another name. *)
Theorem get_tweets_raises_builtin (cap : Z) (data : json) (e : exn) :
  get_tweets_cap cap data = Raise e ->
  builtin_exn e /\ forall cls, e <> OtherError cls.
Proof.
  intros H. apply get_tweets_cap_exn in H. split; [exact H|].
  intros cls. destruct H as [-> | [-> | [-> | ->]]]; discriminate.
Qed.

Lemma get_tweets_raises_builtin_witness :
  builtin_exn IndexError /\ forall cls, IndexError <> OtherError cls.
Proof.
  apply (get_tweets_raises_builtin 1 timeline_without_entries IndexError).
  reflexivity.
Defined.

(** ** The router: classification, effects and writes *)

Lemma prefix_append (sub s : string) :
  String.prefix sub s = true <-> exists post, s = (sub ++ post)%string.
Proof.
  revert s. induction sub as [|a sub IH]; intros s.
  - destruct s; simpl; (split; [intros _; eexists; reflexivity | reflexivity]).
  - destruct s as [|b s]; simpl.
    + split; [discriminate | intros [post H]; discriminate H].
    + destruct (ascii_dec a b) as [-> | Hab].
      * rewrite IH. split; intros [post H]; exists post.
        -- rewrite H; reflexivity.
        -- inversion H; reflexivity.
      * split; [discriminate|]. intros [post H]. inversion H; congruence.
Qed.

(** X15: the test of lines 108 and 111, [sub in url], holds exactly when
    the URL is some text, then [sub], then some text: the endpoint name is
    looked for anywhere in the URL, path or query. *)
Theorem contains_spec (sub s : string) :
  contains sub s = true <-> exists pre post, s = (pre ++ sub ++ post)%string.
Proof.
  induction s as [|c s IH]; cbn [contains].
  - destruct (String.prefix sub EmptyString) eqn:E.
    + split; [intros _ | reflexivity].
      apply prefix_append in E. destruct E as [post E].
      exists EmptyString, post. exact E.
    + split; [discriminate|]. intros (pre & post & H).
      destruct pre; [|discriminate H]. simpl in H.
      assert (E' : String.prefix sub EmptyString = true)
        by (apply prefix_append; exists post; exact H).
      congruence.
  - destruct (String.prefix sub (String c s)) eqn:E.
    + split; [intros _ | reflexivity].
      apply prefix_append in E. destruct E as [post E].
      exists EmptyString, post. exact E.
    + rewrite IH. split.
      * intros (pre & post & H). exists (String c pre), post. rewrite H; reflexivity.
      * intros (pre & post & H). destruct pre as [|c' pre]; simpl in H.
        -- assert (E' : String.prefix sub (String c s) = true)
             by (apply prefix_append; exists post; exact H).
           congruence.
        -- inversion H; subst. exists pre, post. reflexivity.
Qed.

Lemma contains_spec_witness :
  contains "UserTweets" (url tweets_request) = true.
Proof.
  apply (contains_spec "UserTweets" (url tweets_request)).
  exists "https://x.com/i/api/graphql/def/", "?variables=1". reflexivity.
Defined.

Lemma fetches_queried (st : state) : fetches (log (queried st)) = S (fetches (log st)).
Proof.
  simpl. rewrite fetches_app.
  change (fetches [PrintRoute; RouteFetch]) with 1%nat. apply Nat.add_1_r.
Qed.

(** X16: a request of the profile class alone, a body fetched and mapped:
    the handler prints, fetches once, writes the record under [user] and
    calls [route.continue_()]; a lookup of [user] gives the record, and
    every other key of [self.data] is as before. *)
Theorem intercept_request_profile
    (route : Route) (request : Request) (st : state) (payload user : json) :
  contains "UserByScreenName" (url request) = true ->
  contains "UserTweets" (url request) = false ->
  fetch_json route (fetches (log st)) = Ok payload ->
  get_profile payload = Ok user ->
  intercept_request route request st =
    (Ok tt, {| data := dict_set "user" user (data st);
               log := log st ++ [PrintRoute; RouteFetch; RouteContinue] |}) /\
  dict_get "user" (dict_set "user" user (data st)) = Some user /\
  (forall k, k <> "user" ->
     dict_get k (dict_set "user" user (data st)) = dict_get k (data st)).
Proof.
  intros Hu Ht Hf Hp. split; [|split].
  - rewrite intercept_request_eq, bind_run, profile_branch_run, Hu, Hf, Hp.
    rewrite bind_run, tweets_branch_run, Ht. unfold emit; simpl.
    rewrite <- app_assoc. reflexivity.
  - rewrite dict_get_set, String.eqb_refl. reflexivity.
  - intros k Hk. rewrite dict_get_set.
    destruct (String.eqb k "user") eqn:E; [|reflexivity].
    apply String.eqb_eq in E. contradiction.
Qed.

Lemma intercept_request_profile_witness :
  intercept_request (route_with profile_payload) profile_request
      {| data := [("tweets", JList [])]; log := [] |} =
    (Ok tt, {| data := dict_set "user" (JDict (profile_of profile_legacy))
                         [("tweets", JList [])];
               log := [] ++ [PrintRoute; RouteFetch; RouteContinue] |}) /\
  dict_get "user" (dict_set "user" (JDict (profile_of profile_legacy))
                     [("tweets", JList [])]) =
    Some (JDict (profile_of profile_legacy)) /\
  (forall k, k <> "user" ->
     dict_get k (dict_set "user" (JDict (profile_of profile_legacy))
                   [("tweets", JList [])]) =
     dict_get k [("tweets", JList [])]).
Proof.
  apply (intercept_request_profile (route_with profile_payload) profile_request
           {| data := [("tweets", JList [])]; log := [] |}
           profile_payload (JDict (profile_of profile_legacy))); reflexivity.
Defined.

(** X17: a request of the tweets class alone, a body fetched and mapped:
    the handler prints, fetches once, writes the list under [tweets] and
    calls [route.continue_()]; a lookup of [tweets] gives the list, and
    every other key of [self.data] is as before. *)
Theorem intercept_request_tweets
    (route : Route) (request : Request) (st : state)
    (payload : json) (tweets : list json) :
  contains "UserByScreenName" (url request) = false ->
  contains "UserTweets" (url request) = true ->
  fetch_json route (fetches (log st)) = Ok payload ->
  get_tweets payload = Ok tweets ->
  intercept_request route request st =
    (Ok tt, {| data := dict_set "tweets" (JList tweets) (data st);
               log := log st ++ [PrintRoute; RouteFetch; RouteContinue] |}) /\
  dict_get "tweets" (dict_set "tweets" (JList tweets) (data st)) = Some (JList tweets) /\
  (forall k, k <> "tweets" ->
     dict_get k (dict_set "tweets" (JList tweets) (data st)) = dict_get k (data st)).
Proof.
  intros Hu Ht Hf Hp. split; [|split].
  - rewrite intercept_request_eq, bind_run, profile_branch_run, Hu.
    rewrite bind_run, tweets_branch_run, Ht, Hf, Hp. unfold emit; simpl.
    rewrite <- app_assoc. reflexivity.
  - rewrite dict_get_set, String.eqb_refl. reflexivity.
  - intros k Hk. rewrite dict_get_set.
    destruct (String.eqb k "tweets") eqn:E; [|reflexivity].
    apply String.eqb_eq in E. contradiction.
Qed.

Lemma intercept_request_tweets_witness :
  intercept_request (route_with (timeline_with [])) tweets_request
      {| data := []; log := [] |} =
    (Ok tt, {| data := dict_set "tweets" (JList [JDict tweet_full_record]) [];
               log := [] ++ [PrintRoute; RouteFetch; RouteContinue] |}) /\
  dict_get "tweets" (dict_set "tweets" (JList [JDict tweet_full_record]) []) =
    Some (JList [JDict tweet_full_record]) /\
  (forall k, k <> "tweets" ->
     dict_get k (dict_set "tweets" (JList [JDict tweet_full_record]) []) =
     dict_get k []).
Proof.
  apply (intercept_request_tweets (route_with (timeline_with [])) tweets_request
           {| data := []; log := [] |}
           (timeline_with []) [JDict tweet_full_record]); reflexivity.
Defined.

(** X18: the two tests are independent: on a URL with both endpoint
    names the handler fetches twice, maps the first body as a profile and
    the second as a timeline, writes [user] and then [tweets], and calls
    [route.continue_()] once. *)
Theorem intercept_request_both
    (route : Route) (request : Request) (st : state)
    (payload1 user payload2 : json) (tweets : list json) :
  contains "UserByScreenName" (url request) = true ->
  contains "UserTweets" (url request) = true ->
  fetch_json route (fetches (log st)) = Ok payload1 ->
  get_profile payload1 = Ok user ->
  fetch_json route (S (fetches (log st))) = Ok payload2 ->
  get_tweets payload2 = Ok tweets ->
  intercept_request route request st =
  (Ok tt, {| data := dict_set "tweets" (JList tweets) (dict_set "user" user (data st));
             log := log st ++ [PrintRoute; RouteFetch; PrintRoute; RouteFetch;
                               RouteContinue] |}).
Proof.
  intros Hu Ht Hf1 Hp Hf2 Hg.
  rewrite intercept_request_eq, bind_run, profile_branch_run, Hu, Hf1, Hp.
  rewrite bind_run, tweets_branch_run, Ht.
  cbn [log]. rewrite fetches_queried, Hf2, Hg. unfold emit; simpl.
  rewrite <- !app_assoc. reflexivity.
Qed.

Lemma intercept_request_both_witness :
  intercept_request (route_two profile_payload (timeline_with [])) both_request
    {| data := []; log := [] |} =
  (Ok tt, {| data := dict_set "tweets" (JList [JDict tweet_full_record])
                       (dict_set "user" (JDict (profile_of profile_legacy)) []);
             log := [] ++ [PrintRoute; RouteFetch; PrintRoute; RouteFetch;
                           RouteContinue] |}).
Proof.
  apply (intercept_request_both (route_two profile_payload (timeline_with []))
           both_request {| data := []; log := [] |}
           profile_payload (JDict (profile_of profile_legacy))
           (timeline_with []) [JDict tweet_full_record]); reflexivity.
Defined.

Lemma profile_branch_ok (route : Route) (request : Request) (st st' : state) :
  profile_branch route request st = (Ok tt, st') ->
  log st' = log st ++
            (if contains "UserByScreenName" (url request)
             then [PrintRoute; RouteFetch] else []).
Proof.
  rewrite profile_branch_run.
  destruct (contains _ _);
    [destruct (fetch_json route _) as [payload|e];
     [destruct (get_profile payload)|]|];
    intros H; inversion H; subst; simpl; try reflexivity.
  symmetry; apply app_nil_r.
Qed.

Lemma tweets_branch_ok (route : Route) (request : Request) (st st' : state) :
  tweets_branch route request st = (Ok tt, st') ->
  log st' = log st ++
            (if contains "UserTweets" (url request)
             then [PrintRoute; RouteFetch] else []).
Proof.
  rewrite tweets_branch_run.
  destruct (contains _ _);
    [destruct (fetch_json route _) as [payload|e];
     [destruct (get_tweets payload)|]|];
    intros H; inversion H; subst; simpl; try reflexivity.
  symmetry; apply app_nil_r.
Qed.

(** X19: whenever the handler returns, [route.continue_()] is the last
    thing it did and it did it once, after one fetch for each endpoint
    name found in the URL: none, one or two. *)
Theorem intercept_request_returns
    (route : Route) (request : Request) (st st' : state) :
  intercept_request route request st = (Ok tt, st') ->
  exists l,
    log st' = log st ++ l ++ [RouteContinue] /\
    ~ In RouteContinue l /\
    fetches l = (Nat.b2n (contains "UserByScreenName" (url request)) +
                 Nat.b2n (contains "UserTweets" (url request)))%nat.
Proof.
  rewrite intercept_request_eq, bind_run. intros H.
  destruct (profile_branch route request st) as [[[]|e1] st1] eqn:E1;
    [|discriminate H].
  rewrite bind_run in H.
  destruct (tweets_branch route request st1) as [[[]|e2] st2] eqn:E2;
    [|discriminate H].
  unfold emit in H. inversion H; subst st'; clear H. cbn [log].
  apply profile_branch_ok in E1. apply tweets_branch_ok in E2.
  rewrite E2, E1, <- !app_assoc.
  exists ((if contains "UserByScreenName" (url request)
           then [PrintRoute; RouteFetch] else []) ++
          (if contains "UserTweets" (url request)
           then [PrintRoute; RouteFetch] else [])).
  rewrite <- app_assoc. split; [reflexivity|].
  destruct (contains "UserByScreenName" (url request));
    destruct (contains "UserTweets" (url request)); simpl;
    (split; [intros Hin; in_cases Hin; discriminate Hin | reflexivity]).
Qed.

Lemma intercept_request_returns_witness :
  exists l,
    log {| data := [("tweets", JList [JDict tweet_full_record])];
           log := [PrintRoute; RouteFetch; RouteContinue] |} =
      log {| data := []; log := [] |} ++ l ++ [RouteContinue] /\
    ~ In RouteContinue l /\
    fetches l = (Nat.b2n (contains "UserByScreenName" (url tweets_request)) +
                 Nat.b2n (contains "UserTweets" (url tweets_request)))%nat.
Proof.
  apply (intercept_request_returns (route_with (timeline_with [])) tweets_request
           {| data := []; log := [] |}
           {| data := [("tweets", JList [JDict tweet_full_record])];
              log := [PrintRoute; RouteFetch; RouteContinue] |}).
  reflexivity.
Defined.

(** X20: when the fetch of a matched request raises ([route.fetch] or
    [response.json]), the handler raises the same exception right after
    it: nothing is written into [self.data] and [route.continue_()] is not
    called. *)
Theorem intercept_request_fetch_failure
    (route : Route) (request : Request) (st : state) (e : exn) :
  contains "UserByScreenName" (url request) = true \/
  contains "UserTweets" (url request) = true ->
  fetch_json route (fetches (log st)) = Raise e ->
  intercept_request route request st =
  (Raise e, {| data := data st; log := log st ++ [PrintRoute; RouteFetch] |}).
Proof.
  intros Hmatch Hf.
  rewrite intercept_request_eq, bind_run, profile_branch_run.
  destruct (contains "UserByScreenName" (url request)) eqn:Hu.
  - rewrite Hf. reflexivity.
  - destruct Hmatch as [Hm | Hm]; [discriminate Hm|].
    rewrite bind_run, tweets_branch_run, Hm, Hf. reflexivity.
Qed.

Lemma intercept_request_fetch_failure_witness :
  intercept_request (failing_route "TimeoutError") tweets_request
    {| data := [("user", JNone)]; log := [] |} =
  (Raise (OtherError "TimeoutError"),
   {| data := [("user", JNone)]; log := [] ++ [PrintRoute; RouteFetch] |}).
Proof.
  apply (intercept_request_fetch_failure (failing_route "TimeoutError") tweets_request
           {| data := [("user", JNone)]; log := [] |} (OtherError "TimeoutError")).
  - right; reflexivity.
  - reflexivity.
Defined.

(** *** Writes of an interception *)

Lemma dict_set_id (k : string) (v : json) (d : dict) :
  dict_get k d = Some v -> dict_set k v d = d.
Proof.
  induction d as [|[k0 v0] d IH]; simpl.
  - discriminate.
  - destruct (String.eqb k k0).
    + intros H; inversion H; reflexivity.
    + intros H. rewrite (IH H). reflexivity.
Qed.


(** One interception, as the writes it makes. *)
Lemma handle_writes (d : dict) (route : Route) (request : Request) :
  handle d (route, request) = apply_writes (writes route request) d.
Proof.
  unfold handle, writes, tweets_writes; cbn [fst snd].
  rewrite intercept_request_eq, bind_run, profile_branch_run. cbn [log data].
  change (fetches []) with 0%nat.
  destruct (contains "UserByScreenName" (url request)).
  - destruct (fetch_json route 0) as [p|e]; [|reflexivity].
    destruct (get_profile p) as [u|e]; [|reflexivity].
    rewrite bind_run, tweets_branch_run. cbn [log data queried].
    change (fetches ([] ++ [PrintRoute; RouteFetch])) with 1%nat.
    destruct (contains "UserTweets" (url request)); [|reflexivity].
    destruct (fetch_json route 1) as [p2|e]; [|reflexivity].
    destruct (get_tweets p2); reflexivity.
  - rewrite bind_run, tweets_branch_run. cbn [log data].
    change (fetches []) with 0%nat.
    destruct (contains "UserTweets" (url request)); [|reflexivity].
    destruct (fetch_json route 0) as [p2|e]; [|reflexivity].
    destruct (get_tweets p2); reflexivity.
Qed.

Lemma writes_shape (route : Route) (request : Request) :
  writes route request = [] \/
  (exists u, writes route request = [("user", u)]) \/
  (exists t, writes route request = [("tweets", t)]) \/
  (exists u t, writes route request = [("user", u); ("tweets", t)]).
Proof.
  unfold writes, tweets_writes.
  destruct (contains "UserByScreenName" (url request)).
  - destruct (fetch_json route 0) as [p|e]; [|auto].
    destruct (get_profile p) as [u|e]; [|auto].
    destruct (contains "UserTweets" (url request)); [|eauto].
    destruct (fetch_json route 1) as [p2|e]; [|eauto].
    destruct (get_tweets p2); eauto 6.
  - destruct (contains "UserTweets" (url request)); [|auto].
    destruct (fetch_json route 0) as [p2|e]; [|auto].
    destruct (get_tweets p2); eauto 6.
Qed.

(** X21: intercepting the same exchange again changes nothing: after an
    interception, a second one with the same route and request leaves
    [self.data] as the first left it. *)
Theorem handle_idempotent (d : dict) (rr : Route * Request) :
  handle (handle d rr) rr = handle d rr.
Proof.
  destruct rr as [route request]. rewrite !handle_writes.
  destruct (writes_shape route request)
    as [-> | [[u ->] | [[t ->] | (u & t & ->)]]]; unfold apply_writes; simpl.
  - reflexivity.
  - apply dict_set_id. rewrite dict_get_set, String.eqb_refl. reflexivity.
  - apply dict_set_id. rewrite dict_get_set, String.eqb_refl. reflexivity.
  - rewrite (dict_set_id "user" u).
    + apply dict_set_id. rewrite dict_get_set, String.eqb_refl. reflexivity.
    + rewrite !dict_get_set. reflexivity.
Qed.


(** The order of the interceptions is the order of the keys. *)
Example session_tweets_first :
  keys (session [(route_with timeline_payload, tweets_request);
                 (route_with profile_payload, profile_request);
                 (route_with (timeline_with []), tweets_request)]) =
  ["tweets"; "user"].
Proof. reflexivity. Qed.

(** ** Sessions *)

Lemma fold_handle_app (reqs1 reqs2 : list (Route * Request)) (d : dict) :
  fold_left handle (reqs1 ++ reqs2) d = fold_left handle reqs2 (fold_left handle reqs1 d).
Proof. apply fold_left_app. Qed.

(** X23: a session in which no intercepted request names one of the two
    endpoints ends with [self.data] empty, as [__init__] left it. *)
Theorem session_no_match (reqs : list (Route * Request)) :
  Forall (fun rr => contains "UserByScreenName" (url (snd rr)) = false /\
                    contains "UserTweets" (url (snd rr)) = false) reqs ->
  session reqs = [].
Proof.
  unfold session, init_data. generalize (@nil (string * json)) as d.
  induction reqs as [|[route request] reqs IH]; intros d Hall; simpl.
  - reflexivity.
  - inversion Hall as [|? ? [Hu Ht] Hrest]; subst.
    rewrite handle_writes. unfold writes, tweets_writes.
    simpl in Hu, Ht. rewrite Hu, Ht. apply IH. exact Hrest.
Qed.

Lemma session_no_match_witness :
  session [(route_with profile_payload, other_request);
           (failing_route "TimeoutError", other_request)] = [].
Proof.
  apply (session_no_match [(route_with profile_payload, other_request);
                           (failing_route "TimeoutError", other_request)]).
  repeat constructor.
Defined.

(** X24: the last write wins: after a profile interception whose body
    is fetched and mapped, [user] holds the new record, whatever the
    interceptions before it had stored and whatever its tweets branch
    does. *)
Theorem session_last_profile
    (reqs : list (Route * Request)) (route : Route) (request : Request)
    (payload user : json) :
  contains "UserByScreenName" (url request) = true ->
  fetch_json route 0 = Ok payload ->
  get_profile payload = Ok user ->
  dict_get "user" (session (reqs ++ [(route, request)])) = Some user.
Proof.
  intros Hu Hf Hp. unfold session. rewrite fold_handle_app. simpl.
  rewrite handle_writes. unfold writes, tweets_writes. rewrite Hu, Hf, Hp.
  unfold apply_writes.
  destruct (contains "UserTweets" (url request)); simpl;
    [destruct (fetch_json route 1) as [p2|e]; [destruct (get_tweets p2)|]|]; simpl;
    rewrite ?dict_get_set; simpl; rewrite ?dict_get_set, ?String.eqb_refl; reflexivity.
Qed.

Lemma session_last_profile_witness :
  dict_get "user"
    (session ([(route_with null_legacy_body, profile_request);
               (route_with profile_payload, profile_request);
               (route_with timeline_payload, tweets_request)]
              ++ [(route_with (JDict [("data", JDict [("user", JDict [("result",
                      JDict [("legacy", JDict [("screen_name", JStr "x")])])])])]),
                   profile_request)])) =
  Some (JDict (profile_of [("screen_name", JStr "x")])).
Proof.
  apply (session_last_profile _ _ profile_request
           (JDict [("data", JDict [("user", JDict [("result",
              JDict [("legacy", JDict [("screen_name", JStr "x")])])])])]));
    reflexivity.
Defined.
